(** * CodeArtifact constructs: domain.ts and repository.ts

    A shallow embedding of the L2 constructs of
    [packages/aws-cdk-lib/aws-codeartifact/lib]: the [Domain] class with its
    two import paths, and the [Repository] class with [ImportedRepository].

    The constructs are imperative: a constructor registers a node in the
    construct tree, builds an underlying Cfn resource, and the methods mutate
    that resource and shared [iam.PolicyDocument] objects.  The embedding
    threads a [World] (construct tree, heap of policy documents, Cfn
    resources) through a state-and-exception monad [M]; objects hold
    references (indices) into the world, so aliasing of policy documents is
    kept.

    [lib/domain.ts] is present in two revisions.  They share the [Domain]
    class (constructor, [validateProps], [addToResourcePolicy]) and differ in
    the import path: the first goes through the class [ImportedDomain], the
    second builds an inline [Import] object.  [Revision] selects between
    them. *)

From Stdlib Require Import String Ascii List Arith Lia Bool.
From stdpp Require Import base option list strings pretty.

Local Open Scope string_scope.
Local Open Scope list_scope.

(** ** JavaScript values used by the constructs *)

(** Truthiness of an optional string: [undefined] and [''] are falsy. *)
Definition truthy (v : option string) : bool :=
  match v with
  | Some s => negb (String.eqb s "")
  | None => false
  end.

(** [a || b] on optional strings. *)
Definition orElse (a b : option string) : option string :=
  if truthy a then a else b.

(** [s.split(sep)] for a one-character separator. *)
Fixpoint split (sep : ascii) (s : string) : list string :=
  match s with
  | EmptyString => [EmptyString]
  | String c rest =>
      if Ascii.eqb c sep then EmptyString :: split sep rest
      else match split sep rest with
           | hd :: tl => String c hd :: tl
           | [] => [String c EmptyString]
           end
  end.

(** [l.join(sep)]. *)
Definition join (sep : string) (l : list string) : string := String.concat sep l.

(** The text before and after the first occurrence of [sep], if any
    ([indexOf] followed by two [substring]s). *)
Fixpoint breakOn (sep : ascii) (s : string) : option (string * string) :=
  match s with
  | EmptyString => None
  | String c rest =>
      if Ascii.eqb c sep then Some (EmptyString, rest)
      else match breakOn sep rest with
           | Some (a, b) => Some (String c a, b)
           | None => None
           end
  end.

(** ** iam: principals, statements, documents *)

Inductive Effect := ALLOW | DENY.

Inductive IPrincipal :=
| AccountRootPrincipal
| ArnPrincipal (arn : string).

Module PolicyStatement.
Record t := mk {
  effect : Effect;
  principals : list IPrincipal;
  actions : list string;
  resources : list string
}.
End PolicyStatement.

(** An [iam.PolicyDocument] is a mutable object; its state is the list of
    statements added so far.  Objects live in the world's heap and are
    referred to by index ([DocRef]). *)
Definition PolicyDocument := list PolicyStatement.t.
Definition DocRef := nat.

Module AddToResourcePolicyResult.
Record t := mk {
  statementAdded : bool;
  policyDependable : option DocRef
}.
End AddToResourcePolicyResult.

Module IKey.
Record t := mk { keyArn : string; keyId : string }.
End IKey.

Inductive RemovalPolicy := DESTROY | RETAIN | SNAPSHOT.

(** [ExternalConnection] (lib/external-connection.ts) is a string enum; its
    members are passed through to the Cfn resource as they are. *)
Definition ExternalConnection := string.

(** ** Validation rules and errors *)

(** One quantified character class of a regular expression: the code-point
    ranges of the class, whether it is negated, and the repetition bounds
    ([atom_max = None] for an unbounded [+]). *)
Module Atom.
Record t := mk {
  negated : bool;
  ranges : list (nat * nat);
  min : nat;
  max : option nat
}.
End Atom.

(** A [RegExp] literal: its source text and flags as written, and the
    sequence of quantified character classes the source text denotes. *)
Module RegExp.
Record t := mk {
  source : string;
  flags : string;
  atoms : list Atom.t
}.
End RegExp.

Module ValidationRule.
Record t := mk {
  required : bool;
  minLength : option nat;
  maxLength : option nat;
  pattern : option RegExp.t;
  documentationLink : string
}.
End ValidationRule.

Inductive Violation := Missing | TooShort | TooLong | PatternMismatch.

(** What a constructor throws: an [Error] with a literal message, the error
    raised by [validate], or the [TypeError] of reading a property of
    [undefined]. *)
Inductive Error :=
| ErrorMsg (message : string)
| ConstraintViolation (field : string) (rule : ValidationRule.t) (violations : list Violation)
| TypeError.

(** ** The world and the construction monad *)

Module Stack.
Record t := mk { account : string; region : string; partition : string }.
End Stack.

Definition NodeRef := nat.

Module ConstructNode.
Record t := mk {
  scope : option NodeRef;
  id : string;
  dependencies : list NodeRef
}.
End ConstructNode.

Module CfnDomain.
Record t := mk {
  node : NodeRef;
  domainName : string;
  (* the document captured by the Lazy producer [() => props?.policyDocument?.toJSON()] *)
  permissionsPolicyDocument : option DocRef;
  encryptionKey : option string
}.
End CfnDomain.

Module CfnRepository.
Record t := mk {
  node : NodeRef;
  domainName : string;
  domainOwner : option string;
  repositoryName : string;
  description : option string;
  upstreams : option (list (option string));
  externalConnections : option (list ExternalConnection);
  permissionsPolicyDocument : option DocRef;
  removalPolicy : option RemovalPolicy
}.
End CfnRepository.

Module World.
Record t := mk {
  stack : Stack.t;
  constructs : list ConstructNode.t;
  documents : list PolicyDocument;
  cfnDomains : list CfnDomain.t;
  cfnRepositories : list CfnRepository.t
}.
End World.

Inductive Result (A : Type) :=
| Ok (a : A)
| Throw (e : Error).
Arguments Ok {A} a.
Arguments Throw {A} e.

(** A computation runs in a world and either returns or throws; the world
    reached when it throws is kept, as a JavaScript exception undoes
    nothing. *)
Definition M (A : Type) : Type := World.t -> Result A * World.t.

#[global] Instance M_ret : MRet M := fun A a w => (Ok a, w).

#[global] Instance M_bind : MBind M := fun A B f m w =>
  match m w with
  | (Ok a, w') => f a w'
  | (Throw e, w') => (Throw e, w')
  end.

Definition throw {A} (e : Error) : M A := fun w => (Throw e, w).
Definition get : M World.t := fun w => (Ok w, w).
Definition modify (f : World.t -> World.t) : M unit := fun w => (Ok tt, f w).

(** [l.forEach(f)]. *)
Fixpoint forEach {A} (l : list A) (f : A -> M unit) : M unit :=
  match l with
  | [] => mret tt
  | x :: rest => f x ;; forEach rest f
  end.

Definition set_constructs (f : list ConstructNode.t -> list ConstructNode.t) (w : World.t) : World.t :=
  World.mk (World.stack w) (f (World.constructs w)) (World.documents w)
           (World.cfnDomains w) (World.cfnRepositories w).

Definition set_documents (f : list PolicyDocument -> list PolicyDocument) (w : World.t) : World.t :=
  World.mk (World.stack w) (World.constructs w) (f (World.documents w))
           (World.cfnDomains w) (World.cfnRepositories w).

Definition set_cfnDomains (f : list CfnDomain.t -> list CfnDomain.t) (w : World.t) : World.t :=
  World.mk (World.stack w) (World.constructs w) (World.documents w)
           (f (World.cfnDomains w)) (World.cfnRepositories w).

Definition set_cfnRepositories (f : list CfnRepository.t -> list CfnRepository.t) (w : World.t) : World.t :=
  World.mk (World.stack w) (World.constructs w) (World.documents w)
           (World.cfnDomains w) (f (World.cfnRepositories w)).

(** [new Construct(scope, id)]: the base-class constructor every construct
    runs first; it attaches a fresh node under [scope].  The checks of the
    construct library itself (a name already taken under the scope) are not
    part of the embedding. *)
Definition Construct_new (scope : NodeRef) (id : string) : M NodeRef := fun w =>
  (Ok (length (World.constructs w)),
   set_constructs (fun ns => ns ++ [ConstructNode.mk (Some scope) id []]) w).

(** [node.addDependency(dep)]. *)
Definition addDependency (node dep : NodeRef) : M unit :=
  modify (set_constructs (alter (fun n =>
    ConstructNode.mk (ConstructNode.scope n) (ConstructNode.id n)
                     (ConstructNode.dependencies n ++ [dep])) node)).

(** [new iam.PolicyDocument()]. *)
Definition PolicyDocument_new : M DocRef := fun w =>
  (Ok (length (World.documents w)), set_documents (fun ds => ds ++ [[]]) w).

(** [p.addStatements(statement)]. *)
Definition addStatements (p : DocRef) (statement : PolicyStatement.t) : M unit :=
  modify (set_documents (alter (fun d => d ++ [statement]) p)).

Definition when (b : bool) (m : M unit) : M unit := if b then m else mret tt.

(** ** The collaborators outside the two source files *)

Module ArnComponents.
Record t := mk {
  partition : option string;
  service : option string;
  region : option string;
  account : option string;
  resource : option string;
  resourceName : option string
}.
End ArnComponents.

(** What [domain.ts] and [repository.ts] import from the construct library
    core and from [./validation]: token detection, the attribute tokens of a
    Cfn resource, the ARN codec (with [ArnFormat.SLASH_RESOURCE_NAME]) and
    the field validator.  The constructs are embedded over any
    implementation of this interface; [spec_cdk] below is the one the
    specification describes. *)
Class Cdk := {
  isUnresolved : string -> bool;
  getAtt : NodeRef -> string -> string;
  splitArn : string -> Result ArnComponents.t;
  formatArn : Stack.t -> ArnComponents.t -> string;
  validate : string -> ValidationRule.t -> option string -> option Error
}.

Definition liftResult {A} (r : Result A) : M A := fun w => (r, w).

(** A call of [validate] inside a constructor: it returns or throws. *)
Definition runValidate `{Cdk} (name : string) (rule : ValidationRule.t) (value : option string) : M unit :=
  match validate name rule value with
  | Some e => throw e
  | None => mret tt
  end.

(** ** lib/domain.ts *)

(** The two revisions of the file: [Rev1] is lines 1-272 (import through
    [class ImportedDomain]), [Rev2] lines 273-564 (inline [Import], the
    field [domainNameAttr]). *)
Inductive Revision := Rev1 | Rev2.

(** An object behind the interface [IDomain]: its construct node and the
    attributes of the interface, each possibly [undefined] at run time. *)
Module IDomain.
Record t := mk {
  node : NodeRef;
  domainArn : option string;
  domainName : option string;
  domainNameAttr : option string;
  domainOwner : option string;
  domainEncryptionKey : option IKey.t;
  policyDocument : option DocRef
}.
End IDomain.

(** The attribute bag of an import.  The second revision's type makes
    [domainArn] mandatory and adds [domainEncryptionKey]; a caller can still
    leave [domainArn] out at run time, as [repository.ts] does. *)
Module DomainAttributes.
Record t := mk {
  domainArn : option string;
  domainName : option string;
  domainOwner : option string;
  domainEncryptionKey : option IKey.t
}.
End DomainAttributes.

Module DomainProps.
Record t := mk {
  domainName : option string;
  domainEncryptionKey : option IKey.t;
  principal : option IPrincipal;
  policyDocument : option DocRef
}.
End DomainProps.

(** [class ImportedDomain] of the first revision (lines 103-140).  The
    fields the constructor does not assign stay [undefined]. *)
Module ImportedDomain.

Definition new `{Cdk} (scope : NodeRef) (id : string) (props : DomainAttributes.t) : M IDomain.t :=
  this ← Construct_new scope id;
  let domainArn := DomainAttributes.domainArn props in
  let domainName := DomainAttributes.domainName props in
  let domainOwner := DomainAttributes.domainOwner props in
  when (truthy domainArn && truthy domainName)
    (throw (ErrorMsg "domainArn and domainName are mutually exclusive"));;
  when (truthy domainArn && truthy domainOwner)
    (throw (ErrorMsg "domainArn and domainOwner are mutually exclusive"));;
  fromArn ← (match domainArn with
             | Some arn =>
                 if truthy domainArn then
                   c ← liftResult (splitArn arn);
                   mret (Some arn, ArnComponents.resourceName c, split ":" arn !! 4)
                 else mret (None, None, None)
             | None => mret (None, None, None)
             end);
  w ← get;
  let '(thisArn, thisName, thisOwner) := fromArn in
  if truthy domainName then
    let owner := if negb (truthy domainOwner)
                 then Some (Stack.account (World.stack w))
                 else domainOwner in
    mret (IDomain.mk this
            (Some (formatArn (World.stack w)
                     (ArnComponents.mk None (Some "codeartifact") None owner
                                       (Some "domain") domainName)))
            domainName None owner None None)
  else
    mret (IDomain.mk this thisArn thisName None thisOwner None None).

End ImportedDomain.

(** [class Domain]. *)
Module Domain.

(** A [Domain] object: its public attributes and the reference to its
    private [cfnDomain]. *)
Record t := mk {
  base : IDomain.t;
  cfnDomain : nat
}.

(** [Domain.fromDomainAttributes]: lines 161-163 in the first revision,
    lines 421-442 in the second, where [splitArn] is only called when no
    name is given and a missing ARN makes it fail with a [TypeError]. *)
Definition fromDomainAttributes `{Cdk} (rev : Revision) (scope : NodeRef) (id : string)
    (attrs : DomainAttributes.t) : M IDomain.t :=
  match rev with
  | Rev1 => ImportedDomain.new scope id attrs
  | Rev2 =>
      domainName ← (if truthy (DomainAttributes.domainName attrs)
                    then mret (DomainAttributes.domainName attrs)
                    else match DomainAttributes.domainArn attrs with
                         | Some arn =>
                             c ← liftResult (splitArn arn);
                             mret (ArnComponents.resourceName c)
                         | None => throw TypeError
                         end);
      when (negb (truthy domainName))
        (throw (ErrorMsg "Domain name is required as a resource name with the ARN"));;
      instance ← Construct_new scope id;
      mret (IDomain.mk instance (DomainAttributes.domainArn attrs) domainName None None
                       (DomainAttributes.domainEncryptionKey attrs) None)
  end.

Definition fromDomainArn `{Cdk} (rev : Revision) (scope : NodeRef) (id : string)
    (domainArn : string) : M IDomain.t :=
  fromDomainAttributes rev scope id (DomainAttributes.mk (Some domainArn) None None None).

(** The two rule literals of [validateProps]. *)
Definition DomainName_rule : ValidationRule.t :=
  ValidationRule.mk true (Some 2) (Some 50)
    (Some (RegExp.mk "[a-z][a-z0-9\-]{0,48}[a-z0-9]" "gi"
             [Atom.mk false [(97, 122)] 1 (Some 1);
              Atom.mk false [(97, 122); (48, 57); (45, 45)] 0 (Some 48);
              Atom.mk false [(97, 122); (48, 57)] 1 (Some 1)]))
    "https://docs.aws.amazon.com/AWSCloudFormation/latest/UserGuide/aws-resource-codeartifact-domain.html#cfn-codeartifact-domain-domainname".

Definition EncryptionKey_rule : ValidationRule.t :=
  ValidationRule.mk false (Some 1) (Some 2048)
    (Some (RegExp.mk "\S+" "gi"
             [Atom.mk true [(9, 13); (32, 32); (160, 160)] 1 None]))
    "https://docs.aws.amazon.com/AWSCloudFormation/latest/UserGuide/aws-resource-codeartifact-domain.html#cfn-codeartifact-domain-encryptionkey".

(** [validateProps] (lines 194-206 and 486-498). *)
Definition validateProps `{Cdk} (domainName : string) (domainEncryptionKey : option IKey.t) : M unit :=
  when (isUnresolved domainName)
    (throw (ErrorMsg ("'domainName' must resolve, got: '" +:+ domainName +:+ "'")));;
  runValidate "DomainName" DomainName_rule (Some domainName);;
  runValidate "EncryptionKey" EncryptionKey_rule
    (Some (default "" (orElse (IKey.keyArn <$> domainEncryptionKey) (Some "")))).

(** [new CfnDomain(scope, 'Resource', {...})]. *)
Definition CfnDomain_new (scope : NodeRef) (id : string) (domainName : string)
    (permissionsPolicyDocument : option DocRef) (encryptionKey : option string) : M nat :=
  n ← Construct_new scope id;
  w ← get;
  modify (set_cfnDomains (fun ds =>
    ds ++ [CfnDomain.mk n domainName permissionsPolicyDocument encryptionKey]));;
  mret (length (World.cfnDomains w)).

(** The constructor (lines 172-192 and 452-473).  It never assigns
    [domainEncryptionKey]; only the second revision has [domainNameAttr]. *)
Definition new `{Cdk} (rev : Revision) (scope : NodeRef) (id : string)
    (props : option DomainProps.t) : M t :=
  this ← Construct_new scope id;
  let domainName := default id (props ≫= DomainProps.domainName) in
  let domainEncryptionKey := props ≫= DomainProps.domainEncryptionKey in
  validateProps domainName domainEncryptionKey;;
  cfnDomain ← CfnDomain_new this "Resource" domainName
                (props ≫= DomainProps.policyDocument)
                (IKey.keyId <$> domainEncryptionKey);
  w ← get;
  let cfnNode := from_option CfnDomain.node 0 (World.cfnDomains w !! cfnDomain) in
  mret (mk (IDomain.mk this
              (Some (getAtt cfnNode "Arn"))
              (Some domainName)
              (match rev with Rev1 => None | Rev2 => Some (getAtt cfnNode "Name") end)
              (Some (getAtt cfnNode "Owner"))
              None
              (props ≫= DomainProps.policyDocument))
           cfnDomain).

(** [addToResourcePolicy] (lines 211-222 and 503-514). *)
Definition addToResourcePolicy (this : t) (statement : PolicyStatement.t)
    : M AddToResourcePolicyResult.t :=
  match IDomain.policyDocument (base this) with
  | None =>
      p ← (match IDomain.policyDocument (base this) with
           | Some p => mret p
           | None => PolicyDocument_new
           end);
      addStatements p statement;;
      mret (AddToResourcePolicyResult.mk true (Some p))
  | Some _ => mret (AddToResourcePolicyResult.mk false None)
  end.

(** What the Lazy [permissionsPolicyDocument] of the underlying resource
    produces when it is resolved in world [w]: the statements of the
    document given in the constructor props, if one was given. *)
Definition permissionsPolicyDocument (w : World.t) (this : t) : option PolicyDocument :=
  c ← World.cfnDomains w !! cfnDomain this;
  p ← CfnDomain.permissionsPolicyDocument c;
  World.documents w !! p.

End Domain.

(** ** lib/repository.ts *)

(** An object behind the interface [IRepository]. *)
Module IRepository.
Record t := mk {
  node : NodeRef;
  repositoryArn : option string;
  repositoryName : option string;
  repositoryDescription : option string;
  repositoryDomain : IDomain.t
}.
End IRepository.

Module RepositoryAttributes.
Record t := mk {
  repositoryArn : option string;
  repositoryName : option string;
  repositoryDescription : option string;
  repositoryDomain : option IDomain.t
}.
End RepositoryAttributes.

Module RepositoryProps.
Record t := mk {
  repositoryName : option string;
  description : option string;
  repositoryDomain : IDomain.t;
  upstreams : option (list IRepository.t);
  externalConnections : option (list ExternalConnection);
  principal : option IPrincipal;
  policyDocument : option DocRef;
  removalPolicy : option RemovalPolicy
}.
End RepositoryProps.

(** [class ImportedRepository] (lines 175-214).  [rev] is the revision of
    [domain.ts] whose [Domain.fromDomainAttributes] it calls.  When the ARN
    has no resource name, [domainRepo] is the empty string, whose indices 1
    and 2 are [undefined] like those of an empty array. *)
Module ImportedRepository.

Definition new `{Cdk} (rev : Revision) (scope : NodeRef) (id : string)
    (props : RepositoryAttributes.t) : M IRepository.t :=
  this ← Construct_new scope id;
  let repositoryArn := RepositoryAttributes.repositoryArn props in
  let repositoryName := RepositoryAttributes.repositoryName props in
  let repositoryDomain := RepositoryAttributes.repositoryDomain props in
  when (truthy repositoryArn && truthy repositoryName)
    (throw (ErrorMsg "repositoryArn and repositoryName are mutually exclusive"));;
  when (truthy repositoryArn && bool_decide (is_Some repositoryDomain))
    (throw (ErrorMsg "repositoryDomain and repositoryArn are mutually exclusive"));;
  when (negb (truthy repositoryArn)
        && negb (truthy repositoryName && bool_decide (is_Some repositoryDomain)))
    (throw (ErrorMsg "Either repositoryArn or repositoryName, repositoryDomain must be provided"));;
  match repositoryArn, truthy repositoryArn with
  | Some a, true =>
      arn ← liftResult (splitArn a);
      let domainRepo := match ArnComponents.resourceName arn with
                        | Some r => split "/" r
                        | None => []
                        end in
      domain ← Domain.fromDomainAttributes rev this "ImportedDomain"
                 (DomainAttributes.mk None (domainRepo !! 2)
                    (Some (default "" (ArnComponents.account arn))) None);
      mret (IRepository.mk this (Some a) (domainRepo !! 1) None domain)
  | _, _ =>
      match repositoryDomain, truthy repositoryName with
      | Some d, true => mret (IRepository.mk this None repositoryName None d)
      | _, _ =>
          throw (ErrorMsg "Either repositoryArn or repositoryName, repositoryDomain must be provided")
      end
  end.

End ImportedRepository.

(** Assignments to the properties of [this.cfnRepository]. *)
Definition CfnRepository_update (f : CfnRepository.t -> CfnRepository.t) (cfn : nat) : M unit :=
  modify (set_cfnRepositories (alter f cfn)).


Definition set_upstreams (v : option (list (option string))) (c : CfnRepository.t) : CfnRepository.t :=
  CfnRepository.mk (CfnRepository.node c) (CfnRepository.domainName c) (CfnRepository.domainOwner c)
    (CfnRepository.repositoryName c) (CfnRepository.description c) v
    (CfnRepository.externalConnections c) (CfnRepository.permissionsPolicyDocument c)
    (CfnRepository.removalPolicy c).

Definition set_externalConnections (v : option (list ExternalConnection)) (c : CfnRepository.t)
    : CfnRepository.t :=
  CfnRepository.mk (CfnRepository.node c) (CfnRepository.domainName c) (CfnRepository.domainOwner c)
    (CfnRepository.repositoryName c) (CfnRepository.description c) (CfnRepository.upstreams c)
    v (CfnRepository.permissionsPolicyDocument c) (CfnRepository.removalPolicy c).

Definition set_permissionsPolicyDocument (v : option DocRef) (c : CfnRepository.t) : CfnRepository.t :=
  CfnRepository.mk (CfnRepository.node c) (CfnRepository.domainName c) (CfnRepository.domainOwner c)
    (CfnRepository.repositoryName c) (CfnRepository.description c) (CfnRepository.upstreams c)
    (CfnRepository.externalConnections c) v (CfnRepository.removalPolicy c).

Definition applyRemovalPolicy (v : RemovalPolicy) (c : CfnRepository.t) : CfnRepository.t :=
  CfnRepository.mk (CfnRepository.node c) (CfnRepository.domainName c) (CfnRepository.domainOwner c)
    (CfnRepository.repositoryName c) (CfnRepository.description c) (CfnRepository.upstreams c)
    (CfnRepository.externalConnections c) (CfnRepository.permissionsPolicyDocument c) (Some v).

(** [enum PackageFormat] (lib/repository-package.ts) and the string each
    member stands for. *)
Inductive PackageFormat :=
| ANY | CARGO | GENERIC | MAVEN | NPM | NUGET | PYPI | RUBY | SWIFT.

Definition PackageFormat_value (f : PackageFormat) : string :=
  match f with
  | ANY => "*"
  | CARGO => "cargo"
  | GENERIC => "generic"
  | MAVEN => "maven"
  | NPM => "npm"
  | NUGET => "nuget"
  | PYPI => "pypi"
  | RUBY => "ruby"
  | SWIFT => "swift"
  end.

Module PolicyRepositoryPackage.
Record t := mk {
  packageFormat : PackageFormat;
  packageNamespace : string;
  packageName : string
}.
End PolicyRepositoryPackage.

Definition PolicyRepositoryAnyPackage : PolicyRepositoryPackage.t :=
  PolicyRepositoryPackage.mk ANY "*" "*".

(** [class Repository]. *)
Module Repository.

(** A [Repository] object: its public attributes and the reference to its
    private [cfnRepository]. *)
Record t := mk {
  base : IRepository.t;
  cfnRepository : nat
}.

Definition fromRepositoryArn `{Cdk} (rev : Revision) (scope : NodeRef) (id : string)
    (repositoryArn : string) : M IRepository.t :=
  ImportedRepository.new rev scope id (RepositoryAttributes.mk (Some repositoryArn) None None None).

Definition fromRepositoryAttributes `{Cdk} (rev : Revision) (scope : NodeRef) (id : string)
    (attrs : RepositoryAttributes.t) : M IRepository.t :=
  ImportedRepository.new rev scope id attrs.

(** The three rule literals of [validateProps].  The literal [/\P{C}+/gi]
    of the description has no [u] flag: [\P] is then an identity escape and
    the braces are ordinary characters, so the pattern is the letter [P],
    an opening brace, the letter [C] and one or more closing braces (in
    either case of the letters, by the [i] flag), not a Unicode property
    class. *)
Definition Description_rule : ValidationRule.t :=
  ValidationRule.mk false None (Some 1000)
    (Some (RegExp.mk "\P{C}+" "gi"
             [Atom.mk false [(80, 80)] 1 (Some 1);
              Atom.mk false [(123, 123)] 1 (Some 1);
              Atom.mk false [(67, 67)] 1 (Some 1);
              Atom.mk false [(125, 125)] 1 None]))
    "https://docs.aws.amazon.com/AWSCloudFormation/latest/UserGuide/aws-resource-codeartifact-repository.html#cfn-codeartifact-repository-description".

Definition DomainName_rule : ValidationRule.t :=
  ValidationRule.mk true (Some 2) (Some 50)
    (Some (RegExp.mk "[a-z][a-z0-9\-]{0,48}[a-z0-9]" "gi"
             [Atom.mk false [(97, 122)] 1 (Some 1);
              Atom.mk false [(97, 122); (48, 57); (45, 45)] 0 (Some 48);
              Atom.mk false [(97, 122); (48, 57)] 1 (Some 1)]))
    "https://docs.aws.amazon.com/AWSCloudFormation/latest/UserGuide/aws-resource-codeartifact-repository.html#cfn-codeartifact-repository-domainname".

Definition RepositoryName_rule : ValidationRule.t :=
  ValidationRule.mk true (Some 2) (Some 100)
    (Some (RegExp.mk "[A-Za-z0-9][A-Za-z0-9._\-]{1,99}" "gi"
             [Atom.mk false [(65, 90); (97, 122); (48, 57)] 1 (Some 1);
              Atom.mk false [(65, 90); (97, 122); (48, 57); (46, 46); (95, 95); (45, 45)]
                      1 (Some 99)]))
    "https://docs.aws.amazon.com/AWSCloudFormation/latest/UserGuide/aws-resource-codeartifact-repository.html#cfn-codeartifact-repository-repositoryname".

(** [validateProps] (lines 412-449): description, domain name, repository
    name, in this order. *)
Definition validateProps `{Cdk} (repositoryName : string) (repositoryDomainName : option string)
    (repositoryDescription : option string) : M unit :=
  runValidate "Description" Description_rule repositoryDescription;;
  runValidate "DomainName" DomainName_rule repositoryDomainName;;
  runValidate "RepositoryName" RepositoryName_rule (Some repositoryName).

(** [new CfnRepository(scope, 'Resource', {...})]. *)
Definition CfnRepository_new (scope : NodeRef) (id : string) (domainName : string)
    (domainOwner : option string) (repositoryName : string) (description : option string)
    (upstreams : option (list (option string)))
    (externalConnections : option (list ExternalConnection)) : M nat :=
  n ← Construct_new scope id;
  w ← get;
  modify (set_cfnRepositories (fun rs =>
    rs ++ [CfnRepository.mk n domainName domainOwner repositoryName description upstreams
             externalConnections None None]));;
  mret (length (World.cfnRepositories w)).


(** [addToResourcePolicy] (lines 335-343). *)
Definition addToResourcePolicy (this : t) (statement : PolicyStatement.t)
    : M AddToResourcePolicyResult.t :=
  w ← get;
  p ← (match World.cfnRepositories w !! cfnRepository this
             ≫= CfnRepository.permissionsPolicyDocument with
       | Some p => mret p
       | None => PolicyDocument_new
       end);
  addStatements p statement;;
  CfnRepository_update (set_permissionsPolicyDocument (Some p)) (cfnRepository this);;
  mret (AddToResourcePolicyResult.mk true (Some p)).

(** The statements of [allowReadFromRepository] (lines 457-476) and
    [allowWriteToRepository] (lines 512-521). *)
Definition readStatement (principal : IPrincipal) : PolicyStatement.t :=
  PolicyStatement.mk ALLOW [principal]
    ["codeartifact:DescribePackageVersion";
     "codeartifact:DescribeRepository";
     "codeartifact:GetPackageVersionReadme";
     "codeartifact:GetRepositoryEndpoint";
     "codeartifact:ListPackageVersionAssets";
     "codeartifact:ListPackageVersionDependencies";
     "codeartifact:ListPackageVersions";
     "codeartifact:ListPackages";
     "codeartifact:ReadFromRepository"]
    ["*"].

Definition writeStatement (principal : IPrincipal) (resources : list string) : PolicyStatement.t :=
  PolicyStatement.mk ALLOW [principal]
    ["codeartifact:PublishPackageVersion"; "codeartifact:PutPackageMetadata"]
    resources.

Definition allowReadFromRepository (this : t) (principal : IPrincipal)
    : M AddToResourcePolicyResult.t :=
  addToResourcePolicy this (readStatement principal).

Definition allowWriteToRepository (this : t) (principal : IPrincipal)
    (resources : option (list string)) : M AddToResourcePolicyResult.t :=
  addToResourcePolicy this (writeStatement principal (default ["*"] resources)).

Definition allowDeleteFromRepository (this : t) (principal : IPrincipal)
    (resources : option (list string)) : M AddToResourcePolicyResult.t :=
  addToResourcePolicy this
    (PolicyStatement.mk ALLOW [principal] ["codeartifact:DeletePackageVersions"]
       (default ["*"] resources)).

Definition allowWriteDeleteOnRepository (this : t) (principal : IPrincipal)
    (resources : option (list string)) : M AddToResourcePolicyResult.t :=
  addToResourcePolicy this
    (PolicyStatement.mk ALLOW [principal]
       ["codeartifact:PublishPackageVersion"; "codeartifact:PutPackageMetadata";
        "codeartifact:DeletePackageVersions"]
       (default ["*"] resources)).

(** The constructor (lines 280-319). *)
Definition new `{Cdk} (scope : NodeRef) (id : string) (props : RepositoryProps.t) : M t :=
  this ← Construct_new scope id;
  let repositoryDomainName := IDomain.domainName (RepositoryProps.repositoryDomain props) in
  let repositoryDomainOwner := IDomain.domainOwner (RepositoryProps.repositoryDomain props) in
  let repositoryName := default id (RepositoryProps.repositoryName props) in
  let repositoryDescription := RepositoryProps.description props in
  validateProps repositoryName repositoryDomainName repositoryDescription;;
  cfnRepository ← CfnRepository_new this "Resource"
                    (default "" repositoryDomainName)
                    repositoryDomainOwner
                    repositoryName
                    repositoryDescription
                    (map IRepository.repositoryName <$> RepositoryProps.upstreams props)
                    (RepositoryProps.externalConnections props);
  match RepositoryProps.upstreams props with
  | Some upstreams => forEach upstreams (fun u => addDependency this (IRepository.node u))
  | None => mret tt
  end;;
  w ← get;
  let cfnNode := from_option CfnRepository.node 0 (World.cfnRepositories w !! cfnRepository) in
  let self := mk (IRepository.mk this (Some (getAtt cfnNode "Arn")) (Some repositoryName)
                    repositoryDescription (RepositoryProps.repositoryDomain props))
                 cfnRepository in
  match RepositoryProps.policyDocument props with
  | None =>
      let p := default AccountRootPrincipal (RepositoryProps.principal props) in
      allowReadFromRepository self p;;
      allowWriteToRepository self p None;;
      mret tt
  | Some doc =>
      CfnRepository_update (set_permissionsPolicyDocument (Some doc)) cfnRepository
  end;;
  match RepositoryProps.removalPolicy props with
  | Some policy => CfnRepository_update (applyRemovalPolicy policy) cfnRepository
  | None => CfnRepository_update (applyRemovalPolicy RETAIN) cfnRepository
  end;;
  mret self.

(** [withExternalConnections] (lines 585-591) and [withUpstream] (lines
    598-602); both take rest parameters. *)
Definition withExternalConnections (this : t) (externalConnections : list ExternalConnection)
    : M IRepository.t :=
  when (negb (Nat.eqb (length externalConnections) 0))
    (CfnRepository_update (set_externalConnections (Some externalConnections))
                          (cfnRepository this));;
  mret (base this).

Definition withUpstream (this : t) (repository : list IRepository.t) : M IRepository.t :=
  CfnRepository_update
    (set_upstreams
       (Some (map (fun f => orElse (IRepository.repositoryName f) (Some "")) repository)))
    (cfnRepository this);;
  mret (base this).

(** [packageArn] (lines 560-578).  [useResourceArns] defaults to [false];
    [join] writes an [undefined] owner or domain name as the empty string. *)
Definition packageArn `{Cdk} (this : t) (repositoryPackage : PolicyRepositoryPackage.t)
    (useResourceArns : option bool) : M string :=
  w ← get;
  let wildcard := default false useResourceArns in
  let repositoryDomainOwner :=
    if wildcard then Some "*"
    else IDomain.domainOwner (IRepository.repositoryDomain (base this)) in
  let repositoryDomainName :=
    if wildcard then Some "*"
    else IDomain.domainName (IRepository.repositoryDomain (base this)) in
  mret (formatArn (World.stack w)
          (ArnComponents.mk
             (if wildcard then Some "*" else None)
             (Some "codeartifact")
             (if wildcard then Some "*" else None)
             (if wildcard then Some "*" else None)
             (Some "package")
             (Some (join "/" [default "" repositoryDomainOwner;
                              default "" repositoryDomainName;
                              PackageFormat_value
                                (PolicyRepositoryPackage.packageFormat repositoryPackage);
                              PolicyRepositoryPackage.packageNamespace repositoryPackage;
                              PolicyRepositoryPackage.packageName repositoryPackage])))).

(** [repositoryPackages.map(p => this.packageArn(p, true))]. *)
Fixpoint packageArns `{Cdk} (this : t) (repositoryPackages : list PolicyRepositoryPackage.t)
    : M (list string) :=
  match repositoryPackages with
  | [] => mret []
  | p :: rest =>
      arn ← packageArn this p (Some true);
      arns ← packageArns this rest;
      mret (arn :: arns)
  end.

(** [allowWriteToRepositoryPackages] (lines 484-490) and
    [allowWriteDeleteOnRepositoryPackages] (lines 498-504). *)
Definition allowWriteToRepositoryPackages `{Cdk} (this : t) (principal : IPrincipal)
    (repositoryPackages : list PolicyRepositoryPackage.t) : M AddToResourcePolicyResult.t :=
  resources ← packageArns this repositoryPackages;
  allowWriteToRepository this principal (Some resources).

Definition allowWriteDeleteOnRepositoryPackages `{Cdk} (this : t) (principal : IPrincipal)
    (repositoryPackages : list PolicyRepositoryPackage.t) : M AddToResourcePolicyResult.t :=
  resources ← packageArns this repositoryPackages;
  allowWriteDeleteOnRepository this principal (Some resources).

(** The statements of the resource policy of the repository as they stand
    in world [w]: those of the document its Cfn resource refers to. *)
Definition resourcePolicy (w : World.t) (this : t) : option PolicyDocument :=
  c ← World.cfnRepositories w !! cfnRepository this;
  p ← CfnRepository.permissionsPolicyDocument c;
  World.documents w !! p.

End Repository.


(** ** The collaborators as the specification describes them *)

Definition contains (needle s : string) : bool :=
  match index 0 needle s with
  | Some _ => true
  | None => false
  end.

(** Modelled from the spec: [Token.isUnresolved] belongs to the construct
    library core, which is not among the sources.  The specification calls a
    value unresolved when it cannot be statically known at validation time;
    here such a value is a string that carries a token marker. *)
Definition spec_isUnresolved (s : string) : bool := contains "${Token[" s.

(** Modelled from the spec: the attribute tokens [attrArn], [attrOwner] and
    [attrName] of a generated Cfn resource ([./codeartifact.generated] is not
    among the sources): deferred values, one per resource and attribute. *)
Definition spec_getAtt (n : NodeRef) (attr : string) : string :=
  "${Token[" +:+ pretty n +:+ "." +:+ attr +:+ "]}".

(** Modelled from the spec: [Stack.splitArn] with
    [ArnFormat.SLASH_RESOURCE_NAME] is not among the sources.  Section 4.2
    gives the shape
    [arn:<partition>:<service>:<region>:<account>:<resource>/<resourceName>];
    the resource name is everything after the first slash.  The
    specification leaves other strings open; here they are rejected. *)
Definition spec_splitArn (arn : string) : Result ArnComponents.t :=
  match split ":" arn with
  | "arn" :: partition :: service :: region :: account :: resourceTypeOrName :: rest =>
      let whole := join ":" (resourceTypeOrName :: rest) in
      let '(resource, resourceName) :=
        match breakOn "/" whole with
        | Some (a, b) => (a, Some b)
        | None => (whole, None)
        end in
      Ok (ArnComponents.mk (Some partition) (Some service) (Some region) (Some account)
                           (Some resource) resourceName)
  | _ => Throw (ErrorMsg ("could not parse arn " +:+ arn))
  end.

(** Modelled from the spec: [Stack.formatArn] is not among the sources.
    Section 6 gives the composed shape; components left out default to the
    stack's. *)
Definition spec_formatArn (stack : Stack.t) (c : ArnComponents.t) : string :=
  "arn:" +:+ default (Stack.partition stack) (ArnComponents.partition c)
  +:+ ":" +:+ default "" (ArnComponents.service c)
  +:+ ":" +:+ default (Stack.region stack) (ArnComponents.region c)
  +:+ ":" +:+ default (Stack.account stack) (ArnComponents.account c)
  +:+ ":" +:+ default "" (ArnComponents.resource c)
  +:+ match ArnComponents.resourceName c with
      | Some n => "/" +:+ n
      | None => ""
      end.

Definition inRanges (rs : list (nat * nat)) (n : nat) : bool :=
  existsb (fun r => Nat.leb (fst r) n && Nat.leb n (snd r)) rs.

Definition swapCase (n : nat) : nat :=
  if Nat.leb 65 n && Nat.leb n 90 then n + 32
  else if Nat.leb 97 n && Nat.leb n 122 then n - 32
  else n.

Definition inClass (ignoreCase : bool) (a : Atom.t) (c : ascii) : bool :=
  let n := nat_of_ascii c in
  xorb (Atom.negated a)
       (inRanges (Atom.ranges a) n || (ignoreCase && inRanges (Atom.ranges a) (swapCase n))).

(** Whether the sequence of quantified character classes matches at the
    start of [s]: the first class takes some [k] characters within its
    bounds and the rest of the sequence matches at the start of what
    follows. *)
Fixpoint matchAtoms (ignoreCase : bool) (atoms : list Atom.t) (s : list ascii) : bool :=
  match atoms with
  | [] => true
  | a :: rest =>
      let hi := match Atom.max a with
                | Some m => Nat.min m (length s)
                | None => length s
                end in
      existsb (fun k => if forallb (inClass ignoreCase a) (take k s)
                        then matchAtoms ignoreCase rest (drop k s)
                        else false)
              (seq (Atom.min a) (S hi - Atom.min a))
  end.

(** Whether the sequence matches at some position of [s]. *)
Fixpoint searchAtoms (ignoreCase : bool) (atoms : list Atom.t) (s : list ascii) : bool :=
  if matchAtoms ignoreCase atoms s then true
  else match s with
       | [] => false
       | _ :: rest => searchAtoms ignoreCase atoms rest
       end.

(** Whether a value matches a [RegExp], as JavaScript asks it
    ([pattern.test(value)], [value.match(pattern)]): none of the rule
    literals is anchored, so a value matches when some part of it does. *)
Definition matchesPattern (p : RegExp.t) (v : string) : bool :=
  searchAtoms (contains "i" (RegExp.flags p)) (RegExp.atoms p) (list_ascii_of_string v).

(** Modelled from the spec: [validate] of [./validation] is not among the
    sources.  Section 4.1: it fails when the value is absent and required,
    when its length is under [minLength] or over [maxLength], and when it
    does not match the pattern; an absent value that is not required passes.
    A value is absent when it is [undefined] or empty (the [Domain]
    constructor passes [''] for a domain without encryption key, and the
    tests construct such domains).  A value matches the pattern when some
    part of it does, as [matchesPattern] has it: the repository name of 101
    letters of the tests is reported as too long, not as a mismatch.  The
    error raised records every constraint the value violates; which message
    it carries is [message] below. *)
Definition spec_validate (name : string) (rule : ValidationRule.t) (value : option string)
    : option Error :=
  if truthy value then
    let v := default "" value in
    let tooShort := match ValidationRule.minLength rule with
                    | Some m => Nat.ltb (String.length v) m
                    | None => false
                    end in
    let tooLong := match ValidationRule.maxLength rule with
                   | Some m => Nat.ltb m (String.length v)
                   | None => false
                   end in
    let mismatch := match ValidationRule.pattern rule with
                    | Some p => negb (matchesPattern p v)
                    | None => false
                    end in
    match (if tooShort then [TooShort] else [])
          ++ (if tooLong then [TooLong] else [])
          ++ (if mismatch then [PatternMismatch] else []) with
    | [] => None
    | violations => Some (ConstraintViolation name rule violations)
    end
  else if ValidationRule.required rule then Some (ConstraintViolation name rule [Missing])
  else None.

(** Modelled from the spec: the message of an error raised by [validate],
    after the templates of sections 4.1 and 6 and the four messages the
    tests expect.  A value that does not match the pattern gets the pattern
    message, also when it is too long as well: the test [Repository
    description too long] expects the pattern message for a description of
    2002 characters under a [maxLength] of 1000.  A value that is only too
    long gets the length message, followed by the documentation sentence
    when the rule has a pattern (the test [Repository invalid RepositoryName
    length]).  The specification and the tests give no text for a missing or
    too short value. *)
Definition message (e : Error) : option string :=
  match e with
  | ErrorMsg m => Some m
  | TypeError => None
  | ConstraintViolation field rule violations =>
      let link := ValidationRule.documentationLink rule in
      match violations, ValidationRule.maxLength rule, ValidationRule.pattern rule with
      | [PatternMismatch], _, Some p
      | [TooLong; PatternMismatch], _, Some p =>
          Some (field +:+ ": must match pattern " +:+ RegExp.source p
                +:+ ". Must match rules from " +:+ link)
      | [TooLong], Some m, Some _ =>
          Some (field +:+ ": must be less than " +:+ pretty m
                +:+ " characters long. Must match rules from " +:+ link)
      | [TooLong], Some m, None =>
          Some (field +:+ ": must be less than " +:+ pretty m +:+ " characters long.")
      | _, _, _ => None
      end
  end.

Definition spec_cdk : Cdk :=
  Build_Cdk spec_isUnresolved spec_getAtt spec_splitArn spec_formatArn spec_validate.

(** ** A stack to build in *)

Definition testStack : Stack.t := Stack.mk "111122223333" "us-east-2" "aws".

(** [new Stack()]: the stack itself is node 0 of the construct tree. *)
Definition emptyWorld : World.t :=
  World.mk testStack [ConstructNode.mk None "Default" []] [] [] [].

Definition exampleDomainProps : DomainProps.t :=
  DomainProps.mk (Some "example-domain") None None None.

(** The two parts of the outcome of a computation. *)
Definition value {A} (r : Result A * World.t) : Result A := fst r.

Definition world {A} (r : Result A * World.t) : World.t := snd r.

(** ** Auxiliary definitions for the statements *)

(** The world after the base-class constructor has attached one node. *)
Definition attached (scope : NodeRef) (id : string) (w : World.t) : World.t :=
  set_constructs (fun ns => ns ++ [ConstructNode.mk (Some scope) id []]) w.

(** A node with further dependencies recorded. *)
Definition addDeps (n : ConstructNode.t) (ds : list NodeRef) : ConstructNode.t :=
  ConstructNode.mk (ConstructNode.scope n) (ConstructNode.id n)
                   (ConstructNode.dependencies n ++ ds).

(** The Cfn resource a finished [new Repository] leaves behind. *)
Definition builtRepository (scope : NodeRef) (id : string) (props : RepositoryProps.t)
    (w : World.t) : CfnRepository.t :=
  CfnRepository.mk (S (length (World.constructs w)))
    (default "" (IDomain.domainName (RepositoryProps.repositoryDomain props)))
    (IDomain.domainOwner (RepositoryProps.repositoryDomain props))
    (default id (RepositoryProps.repositoryName props))
    (RepositoryProps.description props)
    (map IRepository.repositoryName <$> RepositoryProps.upstreams props)
    (RepositoryProps.externalConnections props)
    (match RepositoryProps.policyDocument props with
     | Some doc => Some doc
     | None => Some (length (World.documents w))
     end)
    (Some (default RETAIN (RepositoryProps.removalPolicy props))).

(** Two worlds that differ at most in their Cfn repositories. *)
Definition sameOutsideCfnRepositories (w w' : World.t) : Prop :=
  World.stack w' = World.stack w
  /\ World.constructs w' = World.constructs w
  /\ World.documents w' = World.documents w
  /\ World.cfnDomains w' = World.cfnDomains w.





Definition RepositoryName_tooLong : string :=
  "RepositoryName: must be less than 100 characters long. Must match rules from https://docs.aws.amazon.com/AWSCloudFormation/latest/UserGuide/aws-resource-codeartifact-repository.html#cfn-codeartifact-repository-repositoryname".

Definition RepositoryName_mismatch : string :=
  "RepositoryName: must match pattern [A-Za-z0-9][A-Za-z0-9._\-]{1,99}. Must match rules from https://docs.aws.amazon.com/AWSCloudFormation/latest/UserGuide/aws-resource-codeartifact-repository.html#cfn-codeartifact-repository-repositoryname".

(** Props with the [upstreams] replaced. *)
Definition withUpstreams (upstreams : option (list IRepository.t)) (props : RepositoryProps.t)
    : RepositoryProps.t :=
  RepositoryProps.mk (RepositoryProps.repositoryName props) (RepositoryProps.description props)
    (RepositoryProps.repositoryDomain props) upstreams
    (RepositoryProps.externalConnections props) (RepositoryProps.principal props)
    (RepositoryProps.policyDocument props) (RepositoryProps.removalPolicy props).

(** The wildcard-scoped package ARN [packageArn(p, true)] asks the stack to
    format. *)
Definition wildcardPackageArn `{Cdk} (stack : Stack.t) (p : PolicyRepositoryPackage.t) : string :=
  formatArn stack
    (ArnComponents.mk (Some "*") (Some "codeartifact") (Some "*") (Some "*") (Some "package")
       (Some ("*/*/" +:+ PackageFormat_value (PolicyRepositoryPackage.packageFormat p)
              +:+ "/" +:+ PolicyRepositoryPackage.packageNamespace p
              +:+ "/" +:+ PolicyRepositoryPackage.packageName p))).

(** A string without the character [c]. *)
Definition without (c : ascii) (s : string) : Prop := ~ In c (list_ascii_of_string s).

(** ** The worlds of the tests *)

(** An allow statement for the account root, as the tests build them. *)
Definition statementOf (action : string) : PolicyStatement.t :=
  PolicyStatement.mk ALLOW [AccountRootPrincipal] [action] ["*"].

(** The ARN of the doc comment of [fromDomainArn]. *)
Definition domainArnLiteral : string :=
  "arn:aws:codeartifact:us-east-2:444455556666:domain/MyDomain".

(** The ARN of the test [Repository from ARN]. *)
Definition repositoryArnLiteral : string :=
  "arn:aws:codeartifact:region-id:123456789012:repository/my-domain/my-repo".

(** The domain of the tests, as [new Domain(stack, 'domain', {domainName:
    'example-domain'})] leaves it. *)
Definition exampleDomain : IDomain.t :=
  IDomain.mk 1 (Some "${Token[2.Arn]}") (Some "example-domain") None
             (Some "${Token[2.Owner]}") None None.

Definition exampleWorld : World.t :=
  world (@Domain.new spec_cdk Rev1 0 "domain" (Some exampleDomainProps) emptyWorld).

Definition exampleRepositoryProps (name : string) : RepositoryProps.t :=
  RepositoryProps.mk (Some name) None exampleDomain None None None None None.

Definition upstreamProps (name : string) (upstreams : list IRepository.t) : RepositoryProps.t :=
  RepositoryProps.mk (Some name) None exampleDomain (Some upstreams) None None None None.

(** Modelled from the spec: [ExternalConnection.NPM_NPMJS] of
    [./external-connection], which is not among the sources: the identifier
    of the public npm registry, an opaque string. *)
Definition NPM_NPMJS : ExternalConnection := "public:npmjs".

Definition connectedProps (name : string) (externalConnections : list ExternalConnection)
    : RepositoryProps.t :=
  RepositoryProps.mk (Some name) None exampleDomain None (Some externalConnections)
                     None None None.

(** The first repository of the tests, as its constructor returns it. *)
Definition repository1 : Repository.t :=
  Repository.mk (IRepository.mk 3 (Some "${Token[4.Arn]}") (Some "example-repo-1") None
                                exampleDomain) 0.

Definition world1 : World.t :=
  world (@Repository.new spec_cdk 0 "repository-1" (exampleRepositoryProps "example-repo-1")
           exampleWorld).

(** The world of the test [Domain w/ Repository and policy document]: the
    example domain and one policy document with one statement, and props
    that pass that document. *)
Definition sharedPolicyWorld : World.t :=
  set_documents (fun ds => ds ++ [[statementOf "codeartifact:DescribePackageVersion"]])
                exampleWorld.

Definition sharedPolicyProps (name : string) : RepositoryProps.t :=
  RepositoryProps.mk (Some name) None exampleDomain None None None (Some 0) None.


(** Props that place a repository in a domain without a name, such as
    the domain of a repository imported from the ARN of the tests. *)
Definition namelessDomainProps : RepositoryProps.t :=
  RepositoryProps.mk (Some "example-repo") None (IDomain.mk 2 None None None None None None)
                     None None None None None.

(** Props of a domain with an encryption key. *)
Definition encryptedDomainProps : DomainProps.t :=
  DomainProps.mk (Some "example-domain")
    (Some (IKey.mk "arn:aws:kms:us-east-2:111122223333:key/1234abcd-12ab-34cd-56ef-1234567890ab"
                   "1234abcd-12ab-34cd-56ef-1234567890ab"))
    None None.

(** The repository name of 101 characters of the test [Repository invalid
    RepositoryName length], and one of 101 characters none of which is a
    letter or digit. *)
Definition longName : string := string_of_list_ascii (replicate 101 "a"%char).


(** The description of 2002 characters of the test [Repository description
    too long], and the domain name of 52 characters of the test [Repository
    invalid domain name length]. *)
Definition longDescription : string := string_of_list_ascii (replicate 2002 "a"%char).

Definition longDomainName : string := string_of_list_ascii (replicate 52 "a"%char).

Definition describedProps (name description : string) : RepositoryProps.t :=
  RepositoryProps.mk (Some name) (Some description) exampleDomain None None None None None.

(** * Properties *)

Ltac unfold_M :=
  unfold mbind, M_bind, mret, M_ret, throw, get, modify, when, liftResult, runValidate in *.

(** ** Domain: construction and [addToResourcePolicy] *)

(** What a successful [new Domain] has built: one construct node for the
    domain, one for its Cfn resource, the Cfn resource itself, and no policy
    document. *)
Lemma Domain_new_Ok `{Cdk} rev scope id props w d w1 :
  Domain.new rev scope id props w = (Ok d, w1) ->
  IDomain.policyDocument (Domain.base d) = props ≫= DomainProps.policyDocument
  /\ IDomain.domainName (Domain.base d) = Some (default id (props ≫= DomainProps.domainName))
  /\ Domain.cfnDomain d = length (World.cfnDomains w)
  /\ World.cfnDomains w1 =
       World.cfnDomains w ++
         [CfnDomain.mk (S (length (World.constructs w)))
            (default id (props ≫= DomainProps.domainName))
            (props ≫= DomainProps.policyDocument)
            (IKey.keyId <$> (props ≫= DomainProps.domainEncryptionKey))]
  /\ World.documents w1 = World.documents w
  /\ World.cfnRepositories w1 = World.cfnRepositories w.
Proof.
  unfold Domain.new, Domain.validateProps, Domain.CfnDomain_new, Construct_new.
  unfold_M. simpl.
  destruct (isUnresolved _); simpl; [discriminate|].
  destruct (validate "DomainName" _ _); simpl; [discriminate|].
  destruct (validate "EncryptionKey" _ _); simpl; [discriminate|].
  intros Heq. inversion Heq; subst; clear Heq. simpl.
  rewrite length_app. simpl. rewrite Nat.add_1_r. auto 10.
Qed.

(** In a freshly extended heap the old documents are where they were. *)
Lemma lookup_alter_fresh {A} (f : A -> A) (l : list A) (x : A) :
  alter f (length l) (l ++ [x]) = l ++ [f x].
Proof.
  induction l as [|a l IH]; simpl; [reflexivity|].
  f_equal. exact IH.
Qed.

(** The outcome of [addToResourcePolicy] on a domain without a document of
    its own: a fresh document holding the statement, and nothing else
    touched. *)
Lemma Domain_addToResourcePolicy_None (d : Domain.t) statement w :
  IDomain.policyDocument (Domain.base d) = None ->
  Domain.addToResourcePolicy d statement w =
    (Ok (AddToResourcePolicyResult.mk true (Some (length (World.documents w)))),
     set_documents (fun ds => ds ++ [[statement]]) w).
Proof.
  intros Hnone. unfold Domain.addToResourcePolicy. rewrite Hnone.
  unfold PolicyDocument_new, addStatements. unfold_M. simpl.
  unfold set_documents. simpl. rewrite lookup_alter_fresh. reflexivity.
Qed.

Lemma Domain_addToResourcePolicy_Some (d : Domain.t) statement w p :
  IDomain.policyDocument (Domain.base d) = Some p ->
  Domain.addToResourcePolicy d statement w =
    (Ok (AddToResourcePolicyResult.mk false None), w).
Proof.
  intros Hsome. unfold Domain.addToResourcePolicy. rewrite Hsome. reflexivity.
Qed.

(** C2.  On a constructed domain, in whatever world it is called,
    [addToResourcePolicy] returns [statementAdded = true] when the
    constructor props gave no policy document, and returns
    [statementAdded = false] and leaves the world as it was when they gave
    one; this for every statement, in both revisions. *)
Theorem Domain_addToResourcePolicy_statementAdded `{Cdk} rev scope id props w d w1 statement w' :
  Domain.new rev scope id props w = (Ok d, w1) ->
  exists r,
    value (Domain.addToResourcePolicy d statement w') = Ok r
    /\ (props ≫= DomainProps.policyDocument = None ->
        AddToResourcePolicyResult.statementAdded r = true)
    /\ (is_Some (props ≫= DomainProps.policyDocument) ->
        AddToResourcePolicyResult.statementAdded r = false
        /\ world (Domain.addToResourcePolicy d statement w') = w').
Proof.
  intros Hnew. apply Domain_new_Ok in Hnew as (Hdoc & _).
  destruct (props ≫= DomainProps.policyDocument) as [p|] eqn:Hp.
  - rewrite (Domain_addToResourcePolicy_Some d statement w' p Hdoc).
    eexists. split; [reflexivity|]. split; [discriminate|].
    intros _. split; reflexivity.
  - rewrite (Domain_addToResourcePolicy_None d statement w' Hdoc).
    eexists. split; [reflexivity|]. split; [reflexivity|].
    intros [x Hx]. discriminate.
Qed.

Lemma Domain_addToResourcePolicy_statementAdded_witness :
  exists d w1,
    @Domain.new spec_cdk Rev1 0 "domain" (Some exampleDomainProps) emptyWorld = (Ok d, w1)
    /\ exists r,
         value (Domain.addToResourcePolicy d (statementOf "codeartifact:ListRepositories") w1) = Ok r
         /\ AddToResourcePolicyResult.statementAdded r = true.
Proof.
  eexists. eexists. split; [vm_compute; reflexivity|].
  destruct (@Domain_addToResourcePolicy_statementAdded spec_cdk Rev1 0 "domain"
              (Some exampleDomainProps) emptyWorld _ _
              (statementOf "codeartifact:ListRepositories") exampleWorld eq_refl)
    as (r & Hr & Hnone & _).
  exists r. split; [exact Hr|]. apply Hnone. reflexivity.
Defined.

(** C3.  Let a domain be constructed and [addToResourcePolicy] be called in
    a world [w'] where the domain's Cfn resource is still as the constructor
    built it.  When the call answers [statementAdded = true], the domain
    has no policy document of its own (the method assigns no field of the
    domain), every Cfn resource and construct node is as before, the
    documents that existed are as before, and what the underlying
    resource's [permissionsPolicyDocument] produces is unchanged.  The
    statement is held only by the document returned as [policyDependable],
    which did not exist before the call. *)
Theorem Domain_addToResourcePolicy_frame `{Cdk} rev scope id props w d w1 statement w' r :
  Domain.new rev scope id props w = (Ok d, w1) ->
  World.cfnDomains w' !! Domain.cfnDomain d = World.cfnDomains w1 !! Domain.cfnDomain d ->
  value (Domain.addToResourcePolicy d statement w') = Ok r ->
  AddToResourcePolicyResult.statementAdded r = true ->
  let w2 := world (Domain.addToResourcePolicy d statement w') in
  IDomain.policyDocument (Domain.base d) = None
  /\ World.cfnDomains w2 = World.cfnDomains w'
  /\ World.cfnRepositories w2 = World.cfnRepositories w'
  /\ World.constructs w2 = World.constructs w'
  /\ Domain.permissionsPolicyDocument w2 d = Domain.permissionsPolicyDocument w' d
  /\ (forall q, q < length (World.documents w') ->
        World.documents w2 !! q = World.documents w' !! q)
  /\ exists p,
       AddToResourcePolicyResult.policyDependable r = Some p
       /\ World.documents w' !! p = None
       /\ World.documents w2 !! p = Some [statement].
Proof.
  intros Hnew Hkept Hr Hadded w2. subst w2.
  apply Domain_new_Ok in Hnew as (Hdoc & _ & Hcfn & Hcfns & _).
  destruct (IDomain.policyDocument (Domain.base d)) as [p|] eqn:Hp.
  - rewrite (Domain_addToResourcePolicy_Some d statement w' p Hp) in Hr.
    simpl in Hr. inversion Hr; subst. discriminate.
  - rewrite (Domain_addToResourcePolicy_None d statement w' Hp) in *.
    simpl in Hr. inversion Hr; subst; clear Hr. simpl.
    split; [reflexivity|]. split; [reflexivity|]. split; [reflexivity|].
    split; [reflexivity|]. split.
    + unfold Domain.permissionsPolicyDocument. simpl.
      rewrite Hkept, Hcfn, Hcfns, list_lookup_middle by reflexivity. simpl.
      rewrite <- Hdoc. reflexivity.
    + split.
      * intros q Hq. apply lookup_app_l. exact Hq.
      * exists (length (World.documents w')). split; [reflexivity|]. split.
        -- apply lookup_ge_None. lia.
        -- apply list_lookup_middle. reflexivity.
Qed.

Lemma Domain_addToResourcePolicy_frame_witness :
  exists d w1 r,
    @Domain.new spec_cdk Rev2 0 "domain" (Some exampleDomainProps) emptyWorld = (Ok d, w1)
    /\ value (Domain.addToResourcePolicy d (statementOf "codeartifact:ListRepositories") w1) = Ok r
    /\ World.cfnDomains
         (world (Domain.addToResourcePolicy d (statementOf "codeartifact:ListRepositories") w1))
       = World.cfnDomains w1.
Proof.
  eexists. eexists. eexists. split; [vm_compute; reflexivity|].
  split; [vm_compute; reflexivity|].
  apply (@Domain_addToResourcePolicy_frame spec_cdk Rev2 0 "domain"
           (Some exampleDomainProps) emptyWorld _ _
           (statementOf "codeartifact:ListRepositories") _ _ eq_refl eq_refl eq_refl eq_refl).
Defined.

(** C7.  A [domainName] prop that is an unresolved token makes [new Domain]
    throw ['domainName' must resolve, got: ...]; the check comes first in
    [validateProps], so no Cfn resource and no policy document has been
    built, and there is no path on which such a name is accepted. *)
Theorem Domain_new_unresolved_domainName `{Cdk} rev scope id props name w :
  props ≫= DomainProps.domainName = Some name ->
  isUnresolved name = true ->
  value (Domain.new rev scope id props w)
    = Throw (ErrorMsg ("'domainName' must resolve, got: '" +:+ name +:+ "'"))
  /\ World.cfnDomains (world (Domain.new rev scope id props w)) = World.cfnDomains w
  /\ World.cfnRepositories (world (Domain.new rev scope id props w)) = World.cfnRepositories w
  /\ World.documents (world (Domain.new rev scope id props w)) = World.documents w.
Proof.
  intros Hname Htoken.
  unfold Domain.new, Domain.validateProps, Construct_new. unfold_M. simpl.
  rewrite Hname. simpl. rewrite Htoken. simpl. auto.
Qed.

Lemma Domain_new_unresolved_domainName_witness :
  value (@Domain.new spec_cdk Rev1 0 "domain"
           (Some (DomainProps.mk (Some "${Token[TOKEN.11]}") None None None)) emptyWorld)
    = Throw (ErrorMsg "'domainName' must resolve, got: '${Token[TOKEN.11]}'").
Proof.
  apply (@Domain_new_unresolved_domainName spec_cdk Rev1 0 "domain"
           (Some (DomainProps.mk (Some "${Token[TOKEN.11]}") None None None))
           "${Token[TOKEN.11]}" emptyWorld eq_refl eq_refl).
Defined.

(** ** Importing a domain *)

(** C5, as stated, fails on the second revision of [domain.ts]: its
    [fromDomainAttributes] has no mutual-exclusion check.  Given an ARN
    together with a name, or together with an owner, it returns an import. *)
Lemma fromDomainAttributes_Rev2_accepts_arn_with_name_or_owner :
  value (@Domain.fromDomainAttributes spec_cdk Rev2 0 "imported"
           (DomainAttributes.mk (Some domainArnLiteral) (Some "other-name") None None)
           emptyWorld)
    = Ok (IDomain.mk 1 (Some domainArnLiteral) (Some "other-name") None None None None)
  /\ value (@Domain.fromDomainAttributes spec_cdk Rev2 0 "imported"
              (DomainAttributes.mk (Some domainArnLiteral) None (Some "999999999999") None)
              emptyWorld)
       = Ok (IDomain.mk 1 (Some domainArnLiteral) (Some "MyDomain") None None None None).
Proof. split; vm_compute; reflexivity. Qed.

(** C5, amended.  With a non-empty [domainArn] and a non-empty [domainName]
    or [domainOwner], the import of the first revision ([ImportedDomain])
    throws: the name message when a name is given, the owner message
    otherwise.  Nothing but the construct node attached by the base-class
    constructor exists afterwards.  The second revision makes no such check:
    when a non-empty name is given it returns an import carrying that name
    and the ARN as given, whether or not an owner is given too. *)
Theorem fromDomainAttributes_mutually_exclusive `{Cdk} scope id attrs w :
  truthy (DomainAttributes.domainArn attrs) = true ->
  truthy (DomainAttributes.domainName attrs) = true
    \/ truthy (DomainAttributes.domainOwner attrs) = true ->
  Domain.fromDomainAttributes Rev1 scope id attrs w
    = (Throw (ErrorMsg (if truthy (DomainAttributes.domainName attrs)
                        then "domainArn and domainName are mutually exclusive"
                        else "domainArn and domainOwner are mutually exclusive")),
       attached scope id w)
  /\ (truthy (DomainAttributes.domainName attrs) = true ->
      exists d,
        Domain.fromDomainAttributes Rev2 scope id attrs w = (Ok d, attached scope id w)
        /\ IDomain.domainName d = DomainAttributes.domainName attrs
        /\ IDomain.domainArn d = DomainAttributes.domainArn attrs).
Proof.
  intros Harn Hor. split.
  - unfold Domain.fromDomainAttributes, ImportedDomain.new, Construct_new. unfold_M. simpl.
    rewrite Harn. simpl.
    destruct (truthy (DomainAttributes.domainName attrs)) eqn:Hname; simpl; [reflexivity|].
    destruct Hor as [Hn|Ho]; [discriminate|]. rewrite Ho. reflexivity.
  - intros Hname.
    unfold Domain.fromDomainAttributes, Construct_new. unfold_M. simpl.
    rewrite Hname. simpl. rewrite Hname. simpl.
    eexists. split; [reflexivity|]. split; reflexivity.
Qed.

Lemma fromDomainAttributes_mutually_exclusive_witness :
  value (@Domain.fromDomainAttributes spec_cdk Rev1 0 "imported"
           (DomainAttributes.mk (Some domainArnLiteral) (Some "other-name") None None)
           emptyWorld)
    = Throw (ErrorMsg "domainArn and domainName are mutually exclusive").
Proof.
  exact (f_equal fst
           (proj1 (@fromDomainAttributes_mutually_exclusive spec_cdk 0 "imported"
                     (DomainAttributes.mk (Some domainArnLiteral) (Some "other-name") None None)
                     emptyWorld eq_refl (or_introl eq_refl)))).
Defined.

(** C6, as stated, fails on the second revision: the inline [Import] object
    gets no [domainOwner], neither the ARN's account field when it is made
    from an ARN, nor the stack's account when a name is given without an
    owner. *)
Lemma fromDomainAttributes_Rev2_leaves_domainOwner_unset :
  split ":" domainArnLiteral !! 4 = Some "444455556666"
  /\ value (@Domain.fromDomainArn spec_cdk Rev2 0 "imported" domainArnLiteral emptyWorld)
       = Ok (IDomain.mk 1 (Some domainArnLiteral) (Some "MyDomain") None None None None)
  /\ value (@Domain.fromDomainAttributes spec_cdk Rev2 0 "imported"
              (DomainAttributes.mk (Some domainArnLiteral) (Some "MyDomain") None None)
              emptyWorld)
       = Ok (IDomain.mk 1 (Some domainArnLiteral) (Some "MyDomain") None None None None)
  /\ Stack.account (World.stack emptyWorld) = "111122223333".
Proof. repeat split; vm_compute; reflexivity. Qed.

(** C6, amended.  In the first revision ([ImportedDomain]) a domain imported
    from a non-empty ARN has, whenever the import succeeds, the fifth
    colon-separated field of that ARN as [domainOwner]; a domain imported by
    a non-empty name, without ARN and without owner, is always built and has
    the account of the deploying stack as [domainOwner].  In the second
    revision an import for which no owner is given has no [domainOwner],
    whether it is made from an ARN or by name. *)
Theorem fromDomainAttributes_domainOwner `{Cdk} scope id attrs w :
  (forall arn d w1,
      DomainAttributes.domainArn attrs = Some arn ->
      truthy (Some arn) = true ->
      Domain.fromDomainAttributes Rev1 scope id attrs w = (Ok d, w1) ->
      IDomain.domainOwner d = split ":" arn !! 4)
  /\ (truthy (DomainAttributes.domainArn attrs) = false ->
      truthy (DomainAttributes.domainName attrs) = true ->
      truthy (DomainAttributes.domainOwner attrs) = false ->
      exists d,
        value (Domain.fromDomainAttributes Rev1 scope id attrs w) = Ok d
        /\ IDomain.domainOwner d = Some (Stack.account (World.stack w)))
  /\ (forall d w1,
      truthy (DomainAttributes.domainOwner attrs) = false ->
      Domain.fromDomainAttributes Rev2 scope id attrs w = (Ok d, w1) ->
      IDomain.domainOwner d = None).
Proof.
  split; [|split].
  - intros arn d w1 Harn Htruthy.
    unfold Domain.fromDomainAttributes, ImportedDomain.new, Construct_new. unfold_M. simpl.
    rewrite Harn, Htruthy. simpl.
    destruct (truthy (DomainAttributes.domainName attrs)) eqn:Hname; simpl; [discriminate|].
    destruct (truthy (DomainAttributes.domainOwner attrs)) eqn:Howner; simpl; [discriminate|].
    destruct (splitArn arn) as [c|e]; simpl; [|discriminate].
    intros Heq. inversion Heq; subst. reflexivity.
  - intros Harn Hname Howner.
    unfold Domain.fromDomainAttributes, ImportedDomain.new, Construct_new. unfold_M. simpl.
    rewrite Harn. simpl.
    destruct (DomainAttributes.domainArn attrs); simpl; rewrite Hname, Howner; simpl;
      eexists; split; reflexivity.
  - intros d w1 _.
    unfold Domain.fromDomainAttributes, Construct_new. unfold_M. simpl.
    destruct (truthy (DomainAttributes.domainName attrs)) eqn:Hname; simpl.
    + rewrite Hname. simpl. intros Heq. inversion Heq; subst. reflexivity.
    + destruct (DomainAttributes.domainArn attrs) as [arn|]; simpl; [|discriminate].
      destruct (splitArn arn) as [c|e]; simpl; [|discriminate].
      destruct (truthy (ArnComponents.resourceName c)); simpl; [|discriminate].
      intros Heq. inversion Heq; subst. reflexivity.
Qed.

Lemma fromDomainAttributes_domainOwner_witness :
  (exists d w1,
      @Domain.fromDomainArn spec_cdk Rev1 0 "imported" domainArnLiteral emptyWorld = (Ok d, w1)
      /\ IDomain.domainOwner d = Some "444455556666")
  /\ (exists d,
      value (@Domain.fromDomainAttributes spec_cdk Rev1 0 "imported"
               (DomainAttributes.mk None (Some "my-domain") None None) emptyWorld) = Ok d
      /\ IDomain.domainOwner d = Some "111122223333").
Proof.
  split.
  - eexists. eexists. split; [vm_compute; reflexivity|].
    exact (proj1 (@fromDomainAttributes_domainOwner spec_cdk 0 "imported"
                    (DomainAttributes.mk (Some domainArnLiteral) None None None) emptyWorld)
             domainArnLiteral _ _ eq_refl eq_refl eq_refl).
  - exact (proj1 (proj2 (@fromDomainAttributes_domainOwner spec_cdk 0 "imported"
                    (DomainAttributes.mk None (Some "my-domain") None None) emptyWorld))
             eq_refl eq_refl eq_refl).
Defined.

(** ** Importing a repository *)

(** X1.  In [ImportedRepository] (with the [ImportedDomain] revision) the
    repository name is segment 1 and the domain name segment 2 of the
    resource name split at slashes, whatever the ARN codec returns. *)
Theorem ImportedRepository_segments `{Cdk} scope id a c w r w1 :
  truthy (Some a) = true ->
  splitArn a = Ok c ->
  Repository.fromRepositoryArn Rev1 scope id a w = (Ok r, w1) ->
  let domainRepo := match ArnComponents.resourceName c with
                    | Some n => split "/" n
                    | None => []
                    end in
  IRepository.repositoryName r = domainRepo !! 1
  /\ IDomain.domainName (IRepository.repositoryDomain r)
     = (if truthy (domainRepo !! 2) then domainRepo !! 2 else None).
Proof.
  intros Ha Hc.
  unfold Repository.fromRepositoryArn, ImportedRepository.new, Domain.fromDomainAttributes,
    ImportedDomain.new, Construct_new.
  unfold_M. simpl in *. rewrite Ha. simpl. rewrite Hc. simpl.
  destruct (truthy (_ !! 2)) eqn:Hseg; simpl;
    intros Heq; inversion Heq; subst; simpl; rewrite ?Hseg; auto.
Qed.

Lemma ImportedRepository_segments_witness :
  exists r w1,
    @Repository.fromRepositoryArn spec_cdk Rev1 0 "repo-from-arn" repositoryArnLiteral emptyWorld
      = (Ok r, w1)
    /\ IRepository.repositoryName r = Some "my-repo"
    /\ IDomain.domainName (IRepository.repositoryDomain r) = None.
Proof.
  eexists. eexists. split; [vm_compute; reflexivity|].
  exact (@ImportedRepository_segments spec_cdk 0 "repo-from-arn" repositoryArnLiteral
           (ArnComponents.mk (Some "aws") (Some "codeartifact") (Some "region-id")
              (Some "123456789012") (Some "repository") (Some "my-domain/my-repo"))
           emptyWorld _ _ eq_refl eq_refl eq_refl).
Defined.

(** C1.  On the ARN of the test, [fromRepositoryArn] yields the repository
    name [my-repo], but the imported domain has no name: the constructor
    reads the domain name from segment 2 of [my-domain/my-repo], which does
    not exist.  With the second revision of [domain.ts] the import of the
    nameless domain throws instead. *)
Theorem fromRepositoryArn_literal :
  value (@Repository.fromRepositoryArn spec_cdk Rev1 0 "repo-from-arn" repositoryArnLiteral
           emptyWorld)
    = Ok (IRepository.mk 1 (Some repositoryArnLiteral) (Some "my-repo") None
            (IDomain.mk 2 None None None None None None))
  /\ value (@Repository.fromRepositoryArn spec_cdk Rev2 0 "repo-from-arn" repositoryArnLiteral
              emptyWorld)
       = Throw TypeError.
Proof. split; vm_compute; reflexivity. Qed.

(** ** Constructing a repository *)

Lemma alter_length_app {A} (f : A -> A) (l : list A) (x : A) (t : list A) :
  alter f (length l) (l ++ x :: t) = l ++ f x :: t.
Proof.
  induction l as [|a l IH]; simpl; [reflexivity|].
  f_equal. exact IH.
Qed.

Lemma lookup_length_app {A} (l : list A) (x : A) (t : list A) :
  (l ++ x :: t) !! length l = Some x.
Proof. induction l as [|a l IH]; simpl; [reflexivity|exact IH]. Qed.

Lemma set_constructs_same (w : World.t) :
  set_constructs (fun _ => World.constructs w) w = w.
Proof. destruct w; reflexivity. Qed.

(** Recording the upstreams as dependencies appends their nodes, in order,
    to the dependencies of the repository's own node. *)
Lemma forEach_addDependency (us : list IRepository.t) cs n t w :
  World.constructs w = cs ++ n :: t ->
  forEach us (fun u => addDependency (length cs) (IRepository.node u)) w
    = (Ok tt, set_constructs (fun _ => cs ++ addDeps n (map IRepository.node us) :: t) w).
Proof.
  revert n w. induction us as [|u us IH]; intros n w Hw; simpl.
  - unfold_M. f_equal. unfold addDeps. rewrite app_nil_r.
    destruct n; simpl. rewrite <- Hw. symmetry. apply set_constructs_same.
  - unfold mbind, M_bind. unfold addDependency at 1. unfold modify at 1.
    erewrite IH; [| simpl; rewrite Hw; apply alter_length_app].
    f_equal. unfold set_constructs, addDeps. simpl. rewrite <- app_assoc. reflexivity.
Qed.

Lemma forEach_addDependency_mk (us : list IRepository.t) st cs n t ds doms rs :
  forEach us (fun u => addDependency (length cs) (IRepository.node u))
          (World.mk st (cs ++ n :: t) ds doms rs)
    = (Ok tt, World.mk st (cs ++ addDeps n (map IRepository.node us) :: t) ds doms rs).
Proof. erewrite forEach_addDependency; reflexivity. Qed.

Lemma Repository_new_Ok `{Cdk} scope id props w r w1 :
  Repository.new scope id props w = (Ok r, w1) ->
  Repository.cfnRepository r = length (World.cfnRepositories w)
  /\ IRepository.node (Repository.base r) = length (World.constructs w)
  /\ World.cfnRepositories w1 = World.cfnRepositories w ++ [builtRepository scope id props w]
  /\ World.documents w1 =
       match RepositoryProps.policyDocument props with
       | Some _ => World.documents w
       | None =>
           let p := default AccountRootPrincipal (RepositoryProps.principal props) in
           World.documents w
             ++ [[Repository.readStatement p; Repository.writeStatement p ["*"]]]
       end
  /\ World.constructs w1 =
       World.constructs w
         ++ [ConstructNode.mk (Some scope) id
               (map IRepository.node (default [] (RepositoryProps.upstreams props)));
             ConstructNode.mk (Some (length (World.constructs w))) "Resource" []]
  /\ World.cfnDomains w1 = World.cfnDomains w.
Proof.
  destruct w as [st cs ds doms rs].
  unfold Repository.new, Repository.validateProps, Repository.CfnRepository_new, Construct_new,
    Repository.allowReadFromRepository, Repository.allowWriteToRepository,
    Repository.addToResourcePolicy, PolicyDocument_new, addStatements, CfnRepository_update.
  unfold_M. simpl.
  destruct (validate "Description" _ _); simpl; [discriminate|].
  destruct (validate "DomainName" _ _); simpl; [discriminate|].
  destruct (validate "RepositoryName" _ _); simpl; [discriminate|].
  unfold set_constructs, set_cfnRepositories, set_documents. simpl.
  rewrite <- app_assoc, length_app, Nat.add_1_r. simpl.
  destruct (RepositoryProps.upstreams props) as [us|] eqn:Hus; simpl;
    rewrite ?forEach_addDependency_mk; simpl;
    (destruct (RepositoryProps.policyDocument props) as [doc|] eqn:Hdoc; simpl;
     repeat (progress (rewrite ?lookup_length_app, ?alter_length_app, ?lookup_alter_fresh; simpl));
     (destruct (RepositoryProps.removalPolicy props) as [policy|] eqn:Hpolicy; simpl;
      rewrite ?alter_length_app; simpl;
      intros Heq; inversion Heq; subst; clear Heq; simpl;
      unfold builtRepository; rewrite Hus, Hdoc, Hpolicy; simpl;
      repeat split; reflexivity)).
Qed.

(** C4.  A repository constructed without a [policyDocument] prop has a
    fresh document as its resource policy, holding exactly two statements:
    one that allows the given principal (the account root principal when
    none is given) the nine read actions on every resource, then one that
    allows the same principal the two write actions on every resource; no
    document that existed before is changed.  A repository constructed with
    a [policyDocument] prop has that very document as its resource policy,
    and construction adds no statement to any document.  The two cases
    exclude each other. *)
Theorem Repository_new_resource_policy `{Cdk} scope id props w r w1 :
  Repository.new scope id props w = (Ok r, w1) ->
  exists c,
    World.cfnRepositories w1 !! Repository.cfnRepository r = Some c
    /\ match RepositoryProps.policyDocument props with
       | None =>
           let p := default AccountRootPrincipal (RepositoryProps.principal props) in
           exists doc,
             CfnRepository.permissionsPolicyDocument c = Some doc
             /\ World.documents w !! doc = None
             /\ World.documents w1 !! doc
                = Some [PolicyStatement.mk ALLOW [p]
                        ["codeartifact:DescribePackageVersion";
                         "codeartifact:DescribeRepository";
                         "codeartifact:GetPackageVersionReadme";
                         "codeartifact:GetRepositoryEndpoint";
                         "codeartifact:ListPackageVersionAssets";
                         "codeartifact:ListPackageVersionDependencies";
                         "codeartifact:ListPackageVersions";
                         "codeartifact:ListPackages";
                         "codeartifact:ReadFromRepository"]
                        ["*"];
                        PolicyStatement.mk ALLOW [p]
                        ["codeartifact:PublishPackageVersion";
                         "codeartifact:PutPackageMetadata"]
                        ["*"]]
             /\ forall q, q < length (World.documents w) ->
                  World.documents w1 !! q = World.documents w !! q
       | Some given =>
           CfnRepository.permissionsPolicyDocument c = Some given
           /\ World.documents w1 = World.documents w
       end.
Proof.
  intros Hnew. apply Repository_new_Ok in Hnew as (Hcfn & _ & Hcfns & Hdocs & _).
  exists (builtRepository scope id props w). split.
  - rewrite Hcfn, Hcfns. apply lookup_length_app.
  - unfold builtRepository. simpl.
    destruct (RepositoryProps.policyDocument props) as [given|]; simpl.
    + split; [reflexivity|exact Hdocs].
    + exists (length (World.documents w)). rewrite Hdocs.
      split; [reflexivity|]. split; [apply lookup_ge_None; lia|].
      split; [apply lookup_length_app|].
      intros q Hq. apply lookup_app_l. exact Hq.
Qed.

Lemma Repository_new_resource_policy_witness :
  exists r w1 c,
    @Repository.new spec_cdk 0 "repository" (exampleRepositoryProps "example-repo") exampleWorld
      = (Ok r, w1)
    /\ World.cfnRepositories w1 !! Repository.cfnRepository r = Some c
    /\ exists doc,
         CfnRepository.permissionsPolicyDocument c = Some doc
         /\ World.documents w1 !! doc
            = Some [PolicyStatement.mk ALLOW [AccountRootPrincipal]
                        ["codeartifact:DescribePackageVersion";
                         "codeartifact:DescribeRepository";
                         "codeartifact:GetPackageVersionReadme";
                         "codeartifact:GetRepositoryEndpoint";
                         "codeartifact:ListPackageVersionAssets";
                         "codeartifact:ListPackageVersionDependencies";
                         "codeartifact:ListPackageVersions";
                         "codeartifact:ListPackages";
                         "codeartifact:ReadFromRepository"]
                        ["*"];
                    PolicyStatement.mk ALLOW [AccountRootPrincipal]
                        ["codeartifact:PublishPackageVersion";
                         "codeartifact:PutPackageMetadata"]
                        ["*"]].
Proof.
  destruct (@Repository.new spec_cdk 0 "repository" (exampleRepositoryProps "example-repo")
              exampleWorld) as [[r|e] w1] eqn:Hnew;
    [|vm_compute in Hnew; discriminate].
  exists r, w1.
  destruct (@Repository_new_resource_policy spec_cdk 0 "repository"
              (exampleRepositoryProps "example-repo") exampleWorld r w1 Hnew)
    as (c & Hc & doc & Hdoc & _ & Hstatements & _).
  exists c. split; [reflexivity|]. split; [exact Hc|].
  exists doc. split; [exact Hdoc|exact Hstatements].
Defined.

(** C9.  A repository constructed with an [upstreams] list has the nodes of
    the upstream repositories, in the given order, as the dependencies of
    its construct node (so each upstream is one of them), and the
    [upstreams] of its Cfn resource are the upstream repositories' names in
    the given order.  This holds for every list, the empty one included. *)
Theorem Repository_new_upstreams `{Cdk} scope id props us w r w1 :
  Repository.new scope id props w = (Ok r, w1) ->
  RepositoryProps.upstreams props = Some us ->
  ConstructNode.dependencies <$> World.constructs w1 !! IRepository.node (Repository.base r)
    = Some (map IRepository.node us)
  /\ (forall u, In u us ->
        exists n, World.constructs w1 !! IRepository.node (Repository.base r) = Some n
                  /\ In (IRepository.node u) (ConstructNode.dependencies n))
  /\ CfnRepository.upstreams <$> World.cfnRepositories w1 !! Repository.cfnRepository r
     = Some (Some (map IRepository.repositoryName us)).
Proof.
  intros Hnew Hus.
  apply Repository_new_Ok in Hnew as (Hcfn & Hnode & Hcfns & _ & Hcs & _).
  rewrite Hnode, Hcs, Hcfn, Hcfns, !lookup_length_app, Hus. simpl.
  split; [reflexivity|]. split; [|unfold builtRepository; rewrite Hus; reflexivity].
  intros u Hu. eexists. split; [reflexivity|]. simpl.
  apply in_map. exact Hu.
Qed.

Lemma Repository_new_upstreams_witness :
  @Repository.new spec_cdk 0 "repository-1" (exampleRepositoryProps "example-repo-1")
    exampleWorld = (Ok repository1, world1)
  /\ exists r2 w2,
       @Repository.new spec_cdk 0 "repository-2"
         (upstreamProps "example-repo-2" [Repository.base repository1]) world1 = (Ok r2, w2)
       /\ ConstructNode.dependencies
            <$> World.constructs w2 !! IRepository.node (Repository.base r2)
          = Some [3]
       /\ CfnRepository.upstreams <$> World.cfnRepositories w2 !! Repository.cfnRepository r2
          = Some (Some [Some "example-repo-1"]).
Proof.
  split; [vm_compute; reflexivity|].
  destruct (@Repository.new spec_cdk 0 "repository-2"
              (upstreamProps "example-repo-2" [Repository.base repository1]) world1)
    as [[r2|e] w2] eqn:Hnew;
    [|vm_compute in Hnew; discriminate].
  exists r2, w2. split; [reflexivity|].
  destruct (@Repository_new_upstreams spec_cdk 0 "repository-2"
              (upstreamProps "example-repo-2" [Repository.base repository1])
              [Repository.base repository1] world1 r2 w2 Hnew eq_refl)
    as (Hdeps & _ & Hups).
  split; [exact Hdeps|exact Hups].
Defined.

(** ** The post-construction mutators *)

(** C10, as stated, fails for [withExternalConnections] called without
    arguments: the list set in the constructor stays, the underlying list
    does not become the (empty) list of arguments. *)
Lemma withExternalConnections_without_arguments_keeps_the_list :
  exists r w1,
    @Repository.new spec_cdk 0 "repository-1" (connectedProps "example-repo-1" [NPM_NPMJS])
      exampleWorld = (Ok r, w1)
    /\ CfnRepository.externalConnections
         <$> World.cfnRepositories (world (Repository.withExternalConnections r [] w1))
               !! Repository.cfnRepository r
       = Some (Some [NPM_NPMJS]).
Proof.
  eexists. eexists. split; vm_compute; reflexivity.
Qed.

Lemma orElse_empty (name : option string) : orElse name (Some "") = Some (default "" name).
Proof.
  unfold orElse. destruct name as [s|]; simpl; [|reflexivity].
  destruct (String.eqb s "") eqn:Hs; simpl; [|reflexivity].
  apply String.eqb_eq in Hs. subst. reflexivity.
Qed.

(** Altering an element that is there is replacing it. *)
Lemma alter_as_insert {A} (f : A -> A) (i : nat) (l : list A) (x : A) :
  l !! i = Some x -> alter f i l = <[i := f x]> l.
Proof.
  revert i. induction l as [|y l IH]; intros [|i] Hx; simpl in *; try discriminate.
  - inversion Hx. reflexivity.
  - f_equal. apply IH. exact Hx.
Qed.

(** C10, amended.  On a repository whose Cfn resource exists, [withUpstream]
    replaces the underlying upstream list by the names of the repositories
    given, in order, a missing name becoming the empty string;
    [withExternalConnections] with at least one argument replaces the
    underlying external-connection list by exactly the arguments, and with
    no argument leaves the world as it is.  Whatever the list held before is
    gone; neither mutator touches another field of the resource, another
    resource, or anything else in the world. *)
Theorem Repository_mutators_overwrite (this : Repository.t) w c :
  World.cfnRepositories w !! Repository.cfnRepository this = Some c ->
  (forall repository,
      let w' := world (Repository.withUpstream this repository w) in
      let names := map (fun f => Some (default "" (IRepository.repositoryName f))) repository in
      CfnRepository.upstreams <$> World.cfnRepositories w' !! Repository.cfnRepository this
        = Some (Some names)
      /\ World.cfnRepositories w'
         = <[Repository.cfnRepository this :=
               CfnRepository.mk (CfnRepository.node c) (CfnRepository.domainName c)
                 (CfnRepository.domainOwner c) (CfnRepository.repositoryName c)
                 (CfnRepository.description c) (Some names)
                 (CfnRepository.externalConnections c)
                 (CfnRepository.permissionsPolicyDocument c)
                 (CfnRepository.removalPolicy c)]> (World.cfnRepositories w)
      /\ sameOutsideCfnRepositories w w')
  /\ (forall externalConnections,
      externalConnections <> [] ->
      let w' := world (Repository.withExternalConnections this externalConnections w) in
      CfnRepository.externalConnections
        <$> World.cfnRepositories w' !! Repository.cfnRepository this
        = Some (Some externalConnections)
      /\ World.cfnRepositories w'
         = <[Repository.cfnRepository this :=
               CfnRepository.mk (CfnRepository.node c) (CfnRepository.domainName c)
                 (CfnRepository.domainOwner c) (CfnRepository.repositoryName c)
                 (CfnRepository.description c) (CfnRepository.upstreams c)
                 (Some externalConnections)
                 (CfnRepository.permissionsPolicyDocument c)
                 (CfnRepository.removalPolicy c)]> (World.cfnRepositories w)
      /\ sameOutsideCfnRepositories w w')
  /\ world (Repository.withExternalConnections this [] w) = w.
Proof.
  intros Hc. split; [|split].
  - intros repository. simpl.
    unfold Repository.withUpstream, CfnRepository_update. unfold_M. simpl.
    assert (Hnames : map (fun f => orElse (IRepository.repositoryName f) (Some "")) repository
                     = map (fun f => Some (default "" (IRepository.repositoryName f))) repository).
    { apply map_ext. intros f. apply orElse_empty. }
    rewrite Hnames.
    split; [rewrite list_lookup_alter_eq, Hc; reflexivity|].
    split; [|repeat split].
    rewrite (alter_as_insert _ _ _ c Hc). reflexivity.
  - intros externalConnections Hne. simpl.
    unfold Repository.withExternalConnections, CfnRepository_update. unfold_M.
    destruct externalConnections as [|e es]; [congruence|]. simpl.
    split; [rewrite list_lookup_alter_eq, Hc; reflexivity|].
    split; [|repeat split].
    rewrite (alter_as_insert _ _ _ c Hc). reflexivity.
  - reflexivity.
Qed.

Lemma Repository_mutators_overwrite_witness :
  CfnRepository.externalConnections
    <$> World.cfnRepositories
          (world (Repository.withExternalConnections repository1 [NPM_NPMJS] world1))
          !! Repository.cfnRepository repository1
    = Some (Some ["public:npmjs"])
  /\ CfnRepository.upstreams
       <$> World.cfnRepositories
             (world (Repository.withUpstream repository1 [Repository.base repository1] world1))
             !! Repository.cfnRepository repository1
     = Some (Some [Some "example-repo-1"]).
Proof.
  destruct (World.cfnRepositories world1 !! Repository.cfnRepository repository1)
    as [c|] eqn:Hc; [|vm_compute in Hc; discriminate].
  split.
  - apply (proj1 (proj2 (Repository_mutators_overwrite repository1 world1 c Hc))).
    discriminate.
  - apply (proj1 (Repository_mutators_overwrite repository1 world1 c Hc)
             [Repository.base repository1]).
Defined.

(** ** Validation of the repository name *)



(** The constructors, with the validator of the specification, on the
    inputs of the four validation tests: the description of 2002 characters
    gets the pattern message, the domain name of 52 characters and the
    repository name of 101 characters the length message, the repository
    name [@@@@@] the pattern message. *)
Lemma constructors_on_the_validation_tests :
  (exists e,
      value (@Repository.new spec_cdk 0 "repository-1"
               (describedProps "example-repo-1" longDescription) exampleWorld) = Throw e
      /\ message e
         = Some "Description: must match pattern \P{C}+. Must match rules from https://docs.aws.amazon.com/AWSCloudFormation/latest/UserGuide/aws-resource-codeartifact-repository.html#cfn-codeartifact-repository-description")
  /\ (exists e,
      value (@Domain.new spec_cdk Rev1 0 "domain"
               (Some (DomainProps.mk (Some longDomainName) None None None)) emptyWorld)
        = Throw e
      /\ message e
         = Some "DomainName: must be less than 50 characters long. Must match rules from https://docs.aws.amazon.com/AWSCloudFormation/latest/UserGuide/aws-resource-codeartifact-domain.html#cfn-codeartifact-domain-domainname")
  /\ (exists e,
      value (@Repository.new spec_cdk 0 "repository-1" (exampleRepositoryProps longName)
               exampleWorld) = Throw e
      /\ message e = Some RepositoryName_tooLong)
  /\ (exists e,
      value (@Repository.new spec_cdk 0 "repository-1" (exampleRepositoryProps "@@@@@")
               exampleWorld) = Throw e
      /\ message e = Some RepositoryName_mismatch).
Proof. repeat split; eexists; (split; [vm_compute; reflexivity|vm_compute; reflexivity]). Qed.











(** ** Removal policy *)

(** X2.  The Cfn resource of a constructed repository carries the removal
    policy of the props, and [RETAIN] when the props give none. *)
Theorem Repository_new_removalPolicy `{Cdk} scope id props w r w1 :
  Repository.new scope id props w = (Ok r, w1) ->
  CfnRepository.removalPolicy <$> World.cfnRepositories w1 !! Repository.cfnRepository r
    = Some (Some (default RETAIN (RepositoryProps.removalPolicy props))).
Proof.
  intros Hnew. apply Repository_new_Ok in Hnew as (Hcfn & _ & Hcfns & _).
  rewrite Hcfn, Hcfns, lookup_length_app. reflexivity.
Qed.

Lemma Repository_new_removalPolicy_witness :
  CfnRepository.removalPolicy <$> World.cfnRepositories world1 !! Repository.cfnRepository repository1
    = Some (Some RETAIN).
Proof.
  apply (@Repository_new_removalPolicy spec_cdk 0 "repository-1"
           (exampleRepositoryProps "example-repo-1") exampleWorld repository1 world1).
  vm_compute. reflexivity.
Defined.

(** * Further properties of the constructs *)

(** ** Resource policies over several calls *)

(** One call of the repository's [addToResourcePolicy] when the resource
    already refers to a document. *)
Lemma Repository_addToResourcePolicy_step (this : Repository.t) statement w c p :
  World.cfnRepositories w !! Repository.cfnRepository this = Some c ->
  CfnRepository.permissionsPolicyDocument c = Some p ->
  Repository.addToResourcePolicy this statement w
    = (Ok (AddToResourcePolicyResult.mk true (Some p)),
       set_cfnRepositories
         (alter (set_permissionsPolicyDocument (Some p)) (Repository.cfnRepository this))
         (set_documents (alter (fun d => d ++ [statement]) p) w)).
Proof.
  intros Hc Hp.
  unfold Repository.addToResourcePolicy, addStatements, CfnRepository_update. unfold_M. simpl.
  rewrite Hc. simpl. rewrite Hp. reflexivity.
Qed.

(** X3.  Statements added to a repository one after the other accumulate,
    in order, in the one document its Cfn resource refers to: that document
    ends with the statements added, every other document is as before, the
    resource still refers to the same document, and each call names it. *)
Theorem Repository_addToResourcePolicy_accumulates (this : Repository.t) statements w c p old :
  World.cfnRepositories w !! Repository.cfnRepository this = Some c ->
  CfnRepository.permissionsPolicyDocument c = Some p ->
  World.documents w !! p = Some old ->
  let run := forEach statements
               (fun s => Repository.addToResourcePolicy this s ;; mret tt) w in
  value run = Ok tt
  /\ World.documents (world run) !! p = Some (old ++ statements)
  /\ (forall q, q <> p -> World.documents (world run) !! q = World.documents w !! q)
  /\ Repository.resourcePolicy (world run) this = Some (old ++ statements)
  /\ World.constructs (world run) = World.constructs w.
Proof.
  revert w c old. induction statements as [|s statements IH]; intros w c old Hc Hp Hold.
  - simpl. unfold Repository.resourcePolicy. rewrite Hc. simpl. rewrite Hp. simpl.
    rewrite app_nil_r. auto.
  - set (w' := set_cfnRepositories
                 (alter (set_permissionsPolicyDocument (Some p)) (Repository.cfnRepository this))
                 (set_documents (alter (fun d => d ++ [s]) p) w)).
    assert (Hrun : forEach (s :: statements)
                     (fun s => Repository.addToResourcePolicy this s ;; mret tt) w
                   = forEach statements
                       (fun s => Repository.addToResourcePolicy this s ;; mret tt) w').
    { simpl. unfold mbind at 1, M_bind at 1. unfold mbind at 1, M_bind at 1.
      rewrite (Repository_addToResourcePolicy_step this s w c p Hc Hp). reflexivity. }
    rewrite Hrun.
    assert (Hc' : World.cfnRepositories w' !! Repository.cfnRepository this
                  = Some (set_permissionsPolicyDocument (Some p) c)).
    { subst w'. simpl. rewrite list_lookup_alter_eq, Hc. reflexivity. }
    assert (Hold' : World.documents w' !! p = Some (old ++ [s])).
    { subst w'. simpl. unfold DocRef, PolicyDocument in *.
      rewrite list_lookup_alter_eq, Hold. reflexivity. }
    destruct (IH w' _ (old ++ [s]) Hc' eq_refl Hold') as (Hv & Hdoc & Hother & Hpolicy & Hcs).
    rewrite <- app_assoc in Hdoc, Hpolicy. simpl in Hdoc, Hpolicy.
    split; [exact Hv|]. split; [exact Hdoc|]. split; [|split; [exact Hpolicy|exact Hcs]].
    intros q Hq. rewrite (Hother q Hq). subst w'. simpl.
    apply list_lookup_alter_ne. congruence.
Qed.

Lemma Repository_addToResourcePolicy_accumulates_witness :
  Repository.resourcePolicy
    (world (forEach [statementOf "codeartifact:ListPackages";
                     statementOf "codeartifact:DescribeDomain"]
              (fun s => Repository.addToResourcePolicy repository1 s ;; mret tt) world1))
    repository1
  = Some [Repository.readStatement AccountRootPrincipal;
          Repository.writeStatement AccountRootPrincipal ["*"];
          statementOf "codeartifact:ListPackages";
          statementOf "codeartifact:DescribeDomain"].
Proof.
  destruct (World.cfnRepositories world1 !! Repository.cfnRepository repository1)
    as [c|] eqn:Hc; [|vm_compute in Hc; discriminate].
  assert (Hp : CfnRepository.permissionsPolicyDocument c = Some 0).
  { vm_compute in Hc. inversion Hc. reflexivity. }
  exact (proj1 (proj2 (proj2 (proj2
           (Repository_addToResourcePolicy_accumulates repository1
              [statementOf "codeartifact:ListPackages";
               statementOf "codeartifact:DescribeDomain"]
              world1 c 0
              [Repository.readStatement AccountRootPrincipal;
               Repository.writeStatement AccountRootPrincipal ["*"]]
              Hc Hp eq_refl))))).
Defined.

Lemma Repository_resourcePolicy_lookup (w : World.t) (this : Repository.t) c p :
  World.cfnRepositories w !! Repository.cfnRepository this = Some c ->
  CfnRepository.permissionsPolicyDocument c = Some p ->
  Repository.resourcePolicy w this = World.documents w !! p.
Proof.
  intros Hc Hp. unfold Repository.resourcePolicy. rewrite Hc. simpl. rewrite Hp. reflexivity.
Qed.

(** X4.  Two repositories constructed with the same [policyDocument] share
    it: a statement added to the first through [addToResourcePolicy] is in
    the resource policy of the second as well, and in the document the
    caller passed in. *)
Theorem Repository_policyDocument_shared `{Cdk} scope1 id1 props1 scope2 id2 props2
    w r1 w1 r2 w2 doc old statement :
  Repository.new scope1 id1 props1 w = (Ok r1, w1) ->
  Repository.new scope2 id2 props2 w1 = (Ok r2, w2) ->
  RepositoryProps.policyDocument props1 = Some doc ->
  RepositoryProps.policyDocument props2 = Some doc ->
  World.documents w !! doc = Some old ->
  let w3 := world (Repository.addToResourcePolicy r1 statement w2) in
  Repository.resourcePolicy w2 r1 = Some old
  /\ Repository.resourcePolicy w2 r2 = Some old
  /\ Repository.resourcePolicy w3 r1 = Some (old ++ [statement])
  /\ Repository.resourcePolicy w3 r2 = Some (old ++ [statement])
  /\ World.documents w3 !! doc = Some (old ++ [statement]).
Proof.
  intros Hnew1 Hnew2 Hdoc1 Hdoc2 Hold w3. subst w3.
  apply Repository_new_Ok in Hnew1 as (Hcfn1 & _ & Hcfns1 & Hdocs1 & _).
  apply Repository_new_Ok in Hnew2 as (Hcfn2 & _ & Hcfns2 & Hdocs2 & _).
  rewrite Hdoc1 in Hdocs1. rewrite Hdoc2 in Hdocs2.
  rewrite Hcfns1 in Hcfn2, Hcfns2.
  assert (Hc1 : World.cfnRepositories w2 !! Repository.cfnRepository r1
                = Some (builtRepository scope1 id1 props1 w)).
  { rewrite Hcfns2, Hcfn1, <- app_assoc. apply lookup_length_app. }
  assert (Hc2 : World.cfnRepositories w2 !! Repository.cfnRepository r2
                = Some (builtRepository scope2 id2 props2 w1)).
  { rewrite Hcfns2, Hcfn2. apply lookup_length_app. }
  assert (Hp1 : CfnRepository.permissionsPolicyDocument (builtRepository scope1 id1 props1 w)
                = Some doc).
  { unfold builtRepository. simpl. rewrite Hdoc1. reflexivity. }
  assert (Hp2 : CfnRepository.permissionsPolicyDocument (builtRepository scope2 id2 props2 w1)
                = Some doc).
  { unfold builtRepository. simpl. rewrite Hdoc2. reflexivity. }
  assert (Hold2 : World.documents w2 !! doc = Some old).
  { rewrite Hdocs2, Hdocs1. exact Hold. }
  assert (Hne : Repository.cfnRepository r1 <> Repository.cfnRepository r2).
  { rewrite Hcfn1, Hcfn2, length_app. simpl. lia. }
  rewrite (Repository_addToResourcePolicy_step r1 statement w2 _ doc Hc1 Hp1).
  set (w3 := set_cfnRepositories _ _). unfold world. cbn [snd].
  assert (Hdoc3 : World.documents w3 !! doc = Some (old ++ [statement])).
  { subst w3. simpl. unfold DocRef, PolicyDocument in *.
    rewrite list_lookup_alter_eq, Hold2. reflexivity. }
  assert (Hc13 : World.cfnRepositories w3 !! Repository.cfnRepository r1
                 = Some (set_permissionsPolicyDocument (Some doc)
                           (builtRepository scope1 id1 props1 w))).
  { subst w3. simpl. rewrite list_lookup_alter_eq, Hc1. reflexivity. }
  assert (Hc23 : World.cfnRepositories w3 !! Repository.cfnRepository r2
                 = Some (builtRepository scope2 id2 props2 w1)).
  { subst w3. simpl. rewrite list_lookup_alter_ne by exact Hne. exact Hc2. }
  rewrite (Repository_resourcePolicy_lookup w2 r1 _ doc Hc1 Hp1).
  rewrite (Repository_resourcePolicy_lookup w2 r2 _ doc Hc2 Hp2).
  rewrite (Repository_resourcePolicy_lookup w3 r1 _ doc Hc13 eq_refl).
  rewrite (Repository_resourcePolicy_lookup w3 r2 _ doc Hc23 Hp2).
  auto.
Qed.

Lemma Repository_policyDocument_shared_witness :
  exists r1 w1 r2 w2,
    @Repository.new spec_cdk 0 "repository-1" (sharedPolicyProps "example-repo-1")
      sharedPolicyWorld = (Ok r1, w1)
    /\ @Repository.new spec_cdk 0 "repository-2" (sharedPolicyProps "example-repo-2") w1
       = (Ok r2, w2)
    /\ Repository.resourcePolicy
         (world (Repository.addToResourcePolicy r1 (statementOf "codeartifact:ListPackages") w2))
         r2
       = Some [statementOf "codeartifact:DescribePackageVersion";
               statementOf "codeartifact:ListPackages"].
Proof.
  destruct (@Repository.new spec_cdk 0 "repository-1" (sharedPolicyProps "example-repo-1")
              sharedPolicyWorld) as [[r1|e1] w1] eqn:Hnew1;
    [|vm_compute in Hnew1; discriminate].
  destruct (@Repository.new spec_cdk 0 "repository-2" (sharedPolicyProps "example-repo-2") w1)
    as [[r2|e2] w2] eqn:Hnew2.
  - exists r1, w1, r2, w2. split; [reflexivity|]. split; [exact Hnew2|].
    exact (proj1 (proj2 (proj2 (proj2
             (@Repository_policyDocument_shared spec_cdk 0 "repository-1"
                (sharedPolicyProps "example-repo-1") 0 "repository-2"
                (sharedPolicyProps "example-repo-2") sharedPolicyWorld r1 w1 r2 w2 0
                [statementOf "codeartifact:DescribePackageVersion"]
                (statementOf "codeartifact:ListPackages")
                Hnew1 Hnew2 eq_refl eq_refl eq_refl))))).
  - exfalso. vm_compute in Hnew1. inversion Hnew1; subst. vm_compute in Hnew2. discriminate.
Defined.

(** ** The domain's [addToResourcePolicy] over several calls *)

(** X5.  On a domain constructed without a policy document, statements
    added through [addToResourcePolicy] never accumulate and never reach the
    domain's resource: every call makes a document of its own that holds
    the one statement, no Cfn resource changes, and the
    [permissionsPolicyDocument] of the underlying resource keeps producing
    nothing. *)
Theorem Domain_addToResourcePolicy_never_accumulates `{Cdk} rev scope id props w d w1
    statements :
  Domain.new rev scope id props w = (Ok d, w1) ->
  props ≫= DomainProps.policyDocument = None ->
  let run := forEach statements (fun s => Domain.addToResourcePolicy d s ;; mret tt) w1 in
  value run = Ok tt
  /\ World.documents (world run) = World.documents w1 ++ map (fun s => [s]) statements
  /\ World.cfnDomains (world run) = World.cfnDomains w1
  /\ World.cfnRepositories (world run) = World.cfnRepositories w1
  /\ Domain.permissionsPolicyDocument (world run) d = None.
Proof.
  intros Hnew Hnone run. subst run.
  apply Domain_new_Ok in Hnew as (Hdoc & _ & Hcfn & Hcfns & _).
  rewrite Hnone in Hdoc, Hcfns.
  assert (Hrun : forall sts w0,
            forEach sts (fun s => Domain.addToResourcePolicy d s ;; mret tt) w0
            = (Ok tt, set_documents (fun ds => ds ++ map (fun s => [s]) sts) w0)).
  { induction sts as [|s sts IH]; intros w0; simpl.
    - unfold_M. f_equal. destruct w0; unfold set_documents; simpl.
      rewrite app_nil_r. reflexivity.
    - unfold mbind at 1, M_bind at 1. unfold mbind at 1, M_bind at 1.
      rewrite (Domain_addToResourcePolicy_None d s w0 Hdoc).
      unfold mret at 1, M_ret at 1. rewrite IH.
      f_equal. unfold set_documents. simpl. rewrite <- app_assoc. reflexivity. }
  rewrite Hrun. simpl.
  split; [reflexivity|]. split; [reflexivity|]. split; [reflexivity|]. split; [reflexivity|].
  unfold Domain.permissionsPolicyDocument. simpl.
  rewrite Hcfn, Hcfns, lookup_length_app. reflexivity.
Qed.

Lemma Domain_addToResourcePolicy_never_accumulates_witness :
  exists d w1,
    @Domain.new spec_cdk Rev1 0 "domain" (Some exampleDomainProps) emptyWorld = (Ok d, w1)
    /\ World.documents
         (world (forEach [statementOf "codeartifact:ListRepositories";
                          statementOf "codeartifact:CreateRepository"]
                   (fun s => Domain.addToResourcePolicy d s ;; mret tt) w1))
       = [[statementOf "codeartifact:ListRepositories"];
          [statementOf "codeartifact:CreateRepository"]].
Proof.
  destruct (@Domain.new spec_cdk Rev1 0 "domain" (Some exampleDomainProps) emptyWorld)
    as [[d|e] w1] eqn:Hnew; [|vm_compute in Hnew; discriminate].
  exists d, w1. split; [reflexivity|].
  destruct (@Domain_addToResourcePolicy_never_accumulates spec_cdk Rev1 0 "domain"
              (Some exampleDomainProps) emptyWorld d w1
              [statementOf "codeartifact:ListRepositories";
               statementOf "codeartifact:CreateRepository"] Hnew eq_refl)
    as (_ & Hdocs & _).
  rewrite Hdocs. vm_compute in Hnew. inversion Hnew; subst. reflexivity.
Defined.

(** ** Upstreams: the constructor and [withUpstream] compared *)

(** Whether [new Repository] returns depends on the three checks of
    [validateProps] only. *)
Lemma Repository_new_validated `{Cdk} scope id props w r w1 :
  Repository.new scope id props w = (Ok r, w1) ->
  validate "Description" Repository.Description_rule (RepositoryProps.description props) = None
  /\ validate "DomainName" Repository.DomainName_rule
              (IDomain.domainName (RepositoryProps.repositoryDomain props)) = None
  /\ validate "RepositoryName" Repository.RepositoryName_rule
              (Some (default id (RepositoryProps.repositoryName props))) = None.
Proof.
  unfold Repository.new, Repository.validateProps, Construct_new. unfold_M. simpl.
  destruct (validate "Description" _ _); simpl; [discriminate|].
  destruct (validate "DomainName" _ _); simpl; [discriminate|].
  destruct (validate "RepositoryName" _ _); simpl; [discriminate|].
  auto.
Qed.

Lemma Repository_new_passes `{Cdk} scope id props w :
  validate "Description" Repository.Description_rule (RepositoryProps.description props) = None ->
  validate "DomainName" Repository.DomainName_rule
           (IDomain.domainName (RepositoryProps.repositoryDomain props)) = None ->
  validate "RepositoryName" Repository.RepositoryName_rule
           (Some (default id (RepositoryProps.repositoryName props))) = None ->
  exists r w1, Repository.new scope id props w = (Ok r, w1).
Proof.
  intros Hdescription Hdomain Hname.
  destruct w as [st cs ds doms rs].
  unfold Repository.new, Repository.validateProps, Repository.CfnRepository_new, Construct_new,
    Repository.allowReadFromRepository, Repository.allowWriteToRepository,
    Repository.addToResourcePolicy, PolicyDocument_new, addStatements, CfnRepository_update.
  unfold_M. simpl.
  rewrite Hdescription. simpl. rewrite Hdomain. simpl. rewrite Hname. simpl.
  unfold set_constructs, set_cfnRepositories, set_documents. simpl.
  rewrite <- app_assoc, length_app, Nat.add_1_r. simpl.
  destruct (RepositoryProps.upstreams props) as [us|]; simpl;
    rewrite ?forEach_addDependency_mk; simpl;
    (destruct (RepositoryProps.policyDocument props) as [doc|]; simpl;
     repeat (progress (rewrite ?lookup_length_app, ?alter_length_app, ?lookup_alter_fresh; simpl));
     (destruct (RepositoryProps.removalPolicy props) as [policy|]; simpl;
      eexists; eexists; reflexivity)).
Qed.

Lemma orElse_named (name : option string) :
  is_Some name -> orElse name (Some "") = name.
Proof.
  intros [s ->]. unfold orElse. simpl.
  destruct (String.eqb s "") eqn:Hs; simpl; [|reflexivity].
  apply String.eqb_eq in Hs. subst. reflexivity.
Qed.

(** X6.  Declaring named upstreams after construction through
    [withUpstream] gives the same Cfn resources and policy documents as
    passing them to the constructor, but not the same construct tree: the
    constructor records every upstream as a dependency of the repository's
    node, [withUpstream] records none. *)
Theorem Repository_withUpstream_records_no_dependency `{Cdk} scope id props us w r0 w0 :
  Repository.new scope id (withUpstreams None props) w = (Ok r0, w0) ->
  Forall (fun u => is_Some (IRepository.repositoryName u)) us ->
  exists r w1,
    Repository.new scope id (withUpstreams (Some us) props) w = (Ok r, w1)
    /\ let w0' := world (Repository.withUpstream r0 us w0) in
       World.cfnRepositories w0' = World.cfnRepositories w1
       /\ World.documents w0' = World.documents w1
       /\ ConstructNode.dependencies
            <$> World.constructs w1 !! IRepository.node (Repository.base r)
          = Some (map IRepository.node us)
       /\ ConstructNode.dependencies
            <$> World.constructs w0' !! IRepository.node (Repository.base r0)
          = Some [].
Proof.
  intros Hnew0 Hnamed.
  pose proof (Repository_new_validated _ _ _ _ _ _ Hnew0) as (Hd & Hn & Hr).
  destruct (Repository_new_passes scope id (withUpstreams (Some us) props) w Hd Hn Hr)
    as (r & w1 & Hnew1).
  exists r, w1. split; [exact Hnew1|].
  apply Repository_new_Ok in Hnew0 as (Hcfn0 & Hnode0 & Hcfns0 & Hdocs0 & Hcs0 & _).
  apply Repository_new_Ok in Hnew1 as (Hcfn1 & Hnode1 & Hcfns1 & Hdocs1 & Hcs1 & _).
  unfold Repository.withUpstream, CfnRepository_update. unfold_M. simpl.
  split; [|split; [|split]].
  - rewrite Hcfns0, Hcfns1, Hcfn0, alter_length_app. f_equal. f_equal.
    unfold builtRepository, set_upstreams. simpl. f_equal.
    f_equal. apply map_ext_Forall.
    eapply Forall_impl; [exact Hnamed|]. intros u Hu. apply orElse_named. exact Hu.
  - rewrite Hdocs0, Hdocs1. reflexivity.
  - rewrite Hnode1, Hcs1, lookup_length_app. reflexivity.
  - rewrite Hnode0, Hcs0, lookup_length_app. reflexivity.
Qed.

Lemma Repository_withUpstream_records_no_dependency_witness :
  exists r w1,
    @Repository.new spec_cdk 0 "repository-2"
      (withUpstreams (Some [Repository.base repository1])
                     (exampleRepositoryProps "example-repo-2")) world1 = (Ok r, w1)
    /\ ConstructNode.dependencies
         <$> World.constructs w1 !! IRepository.node (Repository.base r)
       = Some [3].
Proof.
  destruct (@Repository.new spec_cdk 0 "repository-2"
              (withUpstreams None (exampleRepositoryProps "example-repo-2")) world1)
    as [[r0|e] w0] eqn:Hnew0; [|vm_compute in Hnew0; discriminate].
  destruct (@Repository_withUpstream_records_no_dependency spec_cdk 0 "repository-2"
              (exampleRepositoryProps "example-repo-2") [Repository.base repository1]
              world1 r0 w0 Hnew0)
    as (r & w1 & Hnew1 & _ & _ & Hdeps & _).
  - repeat constructor. eexists. reflexivity.
  - exists r, w1. split; [exact Hnew1|exact Hdeps].
Defined.

(** ** Assigning repositories to a domain *)







(** ** Importing a repository by attributes *)

(** X8.  Importing a repository by attributes: a non-empty ARN together
    with a non-empty name, or with a domain, throws the corresponding
    "mutually exclusive" error; without an ARN, the import returns exactly
    when both a non-empty name and a domain are given, and then carries
    that name and that very domain and no ARN; otherwise it throws the
    "Either ... must be provided" error.  In none of these cases is the ARN
    codec or the domain import called, and nothing but the construct node
    is created. *)
Theorem fromRepositoryAttributes_cases `{Cdk} rev scope id attrs w :
  let arn := truthy (RepositoryAttributes.repositoryArn attrs) in
  let name := truthy (RepositoryAttributes.repositoryName attrs) in
  let domain := RepositoryAttributes.repositoryDomain attrs in
  let run := Repository.fromRepositoryAttributes rev scope id attrs w in
  (arn = true -> name = true ->
   run = (Throw (ErrorMsg "repositoryArn and repositoryName are mutually exclusive"),
          attached scope id w))
  /\ (arn = true -> name = false -> is_Some domain ->
      run = (Throw (ErrorMsg "repositoryDomain and repositoryArn are mutually exclusive"),
             attached scope id w))
  /\ (arn = false -> name = false \/ domain = None ->
      run = (Throw (ErrorMsg
                      "Either repositoryArn or repositoryName, repositoryDomain must be provided"),
             attached scope id w))
  /\ (forall d, arn = false -> name = true -> domain = Some d ->
      run = (Ok (IRepository.mk (length (World.constructs w)) None
                   (RepositoryAttributes.repositoryName attrs) None d),
             attached scope id w)).
Proof.
  intros arn name domain run. subst arn name domain run.
  unfold Repository.fromRepositoryAttributes, ImportedRepository.new, Construct_new.
  unfold_M. simpl.
  split; [|split; [|split]].
  - intros Harn Hname. rewrite Harn, Hname. reflexivity.
  - intros Harn Hname [d Hd]. rewrite Harn, Hname, Hd. reflexivity.
  - intros Harn Hor. rewrite Harn. simpl.
    destruct Hor as [Hname|Hd].
    + rewrite Hname. reflexivity.
    + rewrite Hd. simpl. rewrite andb_false_r. reflexivity.
  - intros d Harn Hname Hd. rewrite Hname, Hd.
    destruct (RepositoryAttributes.repositoryArn attrs) as [a|]; simpl in *;
      [rewrite Harn|]; reflexivity.
Qed.

Lemma fromRepositoryAttributes_cases_witness :
  value (@Repository.fromRepositoryAttributes spec_cdk Rev1 0 "imported"
           (RepositoryAttributes.mk None (Some "example-repo") None (Some exampleDomain))
           exampleWorld)
    = Ok (IRepository.mk 3 None (Some "example-repo") None exampleDomain).
Proof.
  exact (f_equal fst
           (proj2 (proj2 (proj2
              (@fromRepositoryAttributes_cases spec_cdk Rev1 0 "imported"
                 (RepositoryAttributes.mk None (Some "example-repo") None (Some exampleDomain))
                 exampleWorld)))
              exampleDomain eq_refl eq_refl eq_refl)).
Defined.

(** ** Package-scoped statements *)

(** The package ARNs of [allowWriteToRepositoryPackages] are all
    wildcard-scoped; computing them changes nothing. *)
Lemma packageArns_run `{Cdk} (this : Repository.t) (packages : list PolicyRepositoryPackage.t) w :
  Repository.packageArns this packages w
    = (Ok (map (wildcardPackageArn (World.stack w)) packages), w).
Proof.
  induction packages as [|p packages IH]; simpl; [reflexivity|].
  unfold mbind at 1, M_bind at 1.
  unfold Repository.packageArn at 1. unfold mbind at 1, M_bind at 1, get at 1.
  unfold mret at 1, M_ret at 1. unfold mbind at 1, M_bind at 1.
  rewrite IH. reflexivity.
Qed.

(** X9.  [allowWriteToRepositoryPackages] and
    [allowWriteDeleteOnRepositoryPackages] append one allow statement to the
    repository's policy document whose resources are the wildcard-scoped
    ARNs of the packages given, in order: ARNs with [*] for partition,
    region, account, domain owner and domain name, which name neither this
    repository nor its domain.  For an empty package list the statement has
    no resource at all (not the default [*]). *)
Theorem Repository_allow_on_packages `{Cdk} (this : Repository.t) principal packages w c p old :
  World.cfnRepositories w !! Repository.cfnRepository this = Some c ->
  CfnRepository.permissionsPolicyDocument c = Some p ->
  World.documents w !! p = Some old ->
  let arns := map (wildcardPackageArn (World.stack w)) packages in
  Repository.resourcePolicy
    (world (Repository.allowWriteToRepositoryPackages this principal packages w)) this
    = Some (old ++ [PolicyStatement.mk ALLOW [principal]
                      ["codeartifact:PublishPackageVersion";
                       "codeartifact:PutPackageMetadata"] arns])
  /\ Repository.resourcePolicy
       (world (Repository.allowWriteDeleteOnRepositoryPackages this principal packages w)) this
     = Some (old ++ [PolicyStatement.mk ALLOW [principal]
                       ["codeartifact:PublishPackageVersion";
                        "codeartifact:PutPackageMetadata";
                        "codeartifact:DeletePackageVersions"] arns]).
Proof.
  intros Hc Hp Hold arns. subst arns.
  assert (Hstep : forall statement,
            Repository.resourcePolicy
              (world (Repository.addToResourcePolicy this statement w)) this
            = Some (old ++ [statement])).
  { intros statement.
    rewrite (Repository_addToResourcePolicy_step this statement w c p Hc Hp).
    unfold world. cbn [snd].
    erewrite Repository_resourcePolicy_lookup;
      [|simpl; rewrite list_lookup_alter_eq, Hc; reflexivity|reflexivity].
    simpl. unfold DocRef, PolicyDocument in *.
    rewrite list_lookup_alter_eq, Hold. reflexivity. }
  split.
  - unfold Repository.allowWriteToRepositoryPackages, Repository.allowWriteToRepository.
    unfold mbind, M_bind. rewrite packageArns_run. apply Hstep.
  - unfold Repository.allowWriteDeleteOnRepositoryPackages,
      Repository.allowWriteDeleteOnRepository.
    unfold mbind, M_bind. rewrite packageArns_run. apply Hstep.
Qed.

Lemma Repository_allow_on_packages_witness :
  Repository.resourcePolicy
    (world (@Repository.allowWriteToRepositoryPackages spec_cdk repository1 AccountRootPrincipal
              [PolicyRepositoryPackage.mk NPM "scope" "left-pad"] world1))
    repository1
  = Some [PolicyStatement.mk ALLOW [AccountRootPrincipal]
                        ["codeartifact:DescribePackageVersion";
                         "codeartifact:DescribeRepository";
                         "codeartifact:GetPackageVersionReadme";
                         "codeartifact:GetRepositoryEndpoint";
                         "codeartifact:ListPackageVersionAssets";
                         "codeartifact:ListPackageVersionDependencies";
                         "codeartifact:ListPackageVersions";
                         "codeartifact:ListPackages";
                         "codeartifact:ReadFromRepository"]
                        ["*"];
          PolicyStatement.mk ALLOW [AccountRootPrincipal]
            ["codeartifact:PublishPackageVersion"; "codeartifact:PutPackageMetadata"]
            ["*"];
          PolicyStatement.mk ALLOW [AccountRootPrincipal]
            ["codeartifact:PublishPackageVersion"; "codeartifact:PutPackageMetadata"]
            ["arn:*:codeartifact:*:*:package/*/*/npm/scope/left-pad"]].
Proof.
  destruct (World.cfnRepositories world1 !! Repository.cfnRepository repository1)
    as [c|] eqn:Hc; [|vm_compute in Hc; discriminate].
  assert (Hp : CfnRepository.permissionsPolicyDocument c = Some 0).
  { vm_compute in Hc. inversion Hc. reflexivity. }
  exact (proj1 (@Repository_allow_on_packages spec_cdk repository1 AccountRootPrincipal
                  [PolicyRepositoryPackage.mk NPM "scope" "left-pad"] world1 c 0
                  [Repository.readStatement AccountRootPrincipal;
                   Repository.writeStatement AccountRootPrincipal ["*"]]
                  Hc Hp eq_refl)).
Defined.

(** ** Which error a constructor reports *)

(** X10.  [new Repository] reports the first check that fails, in the order
    description, domain name, repository name, with only its construct node
    attached; when all three pass it returns. *)
Theorem Repository_new_first_failure `{Cdk} scope id props w :
  let description :=
    validate "Description" Repository.Description_rule (RepositoryProps.description props) in
  let domainName :=
    validate "DomainName" Repository.DomainName_rule
             (IDomain.domainName (RepositoryProps.repositoryDomain props)) in
  let repositoryName :=
    validate "RepositoryName" Repository.RepositoryName_rule
             (Some (default id (RepositoryProps.repositoryName props))) in
  (forall e, description = Some e ->
   Repository.new scope id props w = (Throw e, attached scope id w))
  /\ (forall e, description = None -> domainName = Some e ->
      Repository.new scope id props w = (Throw e, attached scope id w))
  /\ (forall e, description = None -> domainName = None -> repositoryName = Some e ->
      Repository.new scope id props w = (Throw e, attached scope id w))
  /\ (description = None -> domainName = None -> repositoryName = None ->
      exists r w1, Repository.new scope id props w = (Ok r, w1)).
Proof.
  intros description domainName repositoryName.
  subst description domainName repositoryName.
  split; [|split; [|split]].
  - intros e H1.
    unfold Repository.new, Repository.validateProps, Construct_new. unfold_M. simpl.
    rewrite H1. reflexivity.
  - intros e H1 H2.
    unfold Repository.new, Repository.validateProps, Construct_new. unfold_M. simpl.
    rewrite H1. simpl. rewrite H2. reflexivity.
  - intros e H1 H2 H3.
    unfold Repository.new, Repository.validateProps, Construct_new. unfold_M. simpl.
    rewrite H1. simpl. rewrite H2. simpl. rewrite H3. reflexivity.
  - apply Repository_new_passes.
Qed.

Lemma Repository_new_first_failure_witness :
  value (@Repository.new spec_cdk 0 "repository" namelessDomainProps exampleWorld)
    = Throw (ConstraintViolation "DomainName" Repository.DomainName_rule [Missing]).
Proof.
  exact (f_equal fst
           (proj1 (proj2 (@Repository_new_first_failure spec_cdk 0 "repository"
                            namelessDomainProps exampleWorld))
              (ConstraintViolation "DomainName" Repository.DomainName_rule [Missing])
              eq_refl eq_refl)).
Defined.

(** X11.  [new Domain] reports, in this order, an unresolved name, a failing
    domain name, a failing encryption key ARN (the empty string is checked
    when there is no key), with only its construct node attached and no Cfn
    resource built; when all pass it returns. *)
Theorem Domain_new_first_failure `{Cdk} rev scope id props w :
  let name := default id (props ≫= DomainProps.domainName) in
  let key := props ≫= DomainProps.domainEncryptionKey in
  let domainName := validate "DomainName" Domain.DomainName_rule (Some name) in
  let encryptionKey :=
    validate "EncryptionKey" Domain.EncryptionKey_rule
             (Some (default "" (orElse (IKey.keyArn <$> key) (Some "")))) in
  (isUnresolved name = true ->
   Domain.new rev scope id props w
     = (Throw (ErrorMsg ("'domainName' must resolve, got: '" +:+ name +:+ "'")),
        attached scope id w))
  /\ (forall e, isUnresolved name = false -> domainName = Some e ->
      Domain.new rev scope id props w = (Throw e, attached scope id w))
  /\ (forall e, isUnresolved name = false -> domainName = None -> encryptionKey = Some e ->
      Domain.new rev scope id props w = (Throw e, attached scope id w))
  /\ (isUnresolved name = false -> domainName = None -> encryptionKey = None ->
      exists d w1, Domain.new rev scope id props w = (Ok d, w1)).
Proof.
  intros name key domainName encryptionKey.
  subst name key domainName encryptionKey.
  unfold Domain.new, Domain.validateProps, Domain.CfnDomain_new, Construct_new.
  unfold_M. simpl.
  split; [|split; [|split]].
  - intros Htoken. rewrite Htoken. reflexivity.
  - intros e Htoken Hname. rewrite Htoken. simpl. rewrite Hname. reflexivity.
  - intros e Htoken Hname Hkey. rewrite Htoken. simpl. rewrite Hname. simpl.
    rewrite Hkey. reflexivity.
  - intros Htoken Hname Hkey. rewrite Htoken. simpl. rewrite Hname. simpl.
    rewrite Hkey. simpl. eexists. eexists. reflexivity.
Qed.

Lemma Domain_new_first_failure_witness :
  value (@Domain.new spec_cdk Rev1 0 "domain" (Some (DomainProps.mk (Some "a") None None None))
           emptyWorld)
    = Throw (ConstraintViolation "DomainName" Domain.DomainName_rule [TooShort; PatternMismatch]).
Proof.
  exact (f_equal fst
           (proj1 (proj2 (@Domain_new_first_failure spec_cdk Rev1 0 "domain"
                            (Some (DomainProps.mk (Some "a") None None None)) emptyWorld))
              (ConstraintViolation "DomainName" Domain.DomainName_rule
                 [TooShort; PatternMismatch])
              eq_refl eq_refl)).
Defined.

(** ** What construction leaves alone *)

(** X12.  Constructing a repository changes nothing that existed: every
    Cfn resource, construct node and policy document of the world before is
    the same afterwards (a policy document passed in the props is not
    written to, upstream repositories are not touched), no domain resource
    changes, and exactly one Cfn repository and two construct nodes are
    new. *)
Theorem Repository_new_frame `{Cdk} scope id props w r w1 :
  Repository.new scope id props w = (Ok r, w1) ->
  (forall i c, World.cfnRepositories w !! i = Some c -> World.cfnRepositories w1 !! i = Some c)
  /\ (forall i n, World.constructs w !! i = Some n -> World.constructs w1 !! i = Some n)
  /\ (forall q d, World.documents w !! q = Some d -> World.documents w1 !! q = Some d)
  /\ World.cfnDomains w1 = World.cfnDomains w
  /\ length (World.cfnRepositories w1) = S (length (World.cfnRepositories w))
  /\ length (World.constructs w1) = S (S (length (World.constructs w))).
Proof.
  intros Hnew.
  apply Repository_new_Ok in Hnew as (_ & _ & Hcfns & Hdocs & Hcs & Hdoms).
  rewrite Hcfns, Hcs, Hdocs, !length_app. simpl.
  split; [|split; [|split; [|split; [exact Hdoms|split; lia]]]].
  - intros i c Hc. apply lookup_app_l_Some. exact Hc.
  - intros i n Hn. apply lookup_app_l_Some. exact Hn.
  - intros q d Hd. destruct (RepositoryProps.policyDocument props); [exact Hd|].
    apply lookup_app_l_Some. exact Hd.
Qed.

Lemma Repository_new_frame_witness :
  exists r w2,
    @Repository.new spec_cdk 0 "repository-2"
      (upstreamProps "example-repo-2" [Repository.base repository1]) world1 = (Ok r, w2)
    /\ World.cfnRepositories w2 !! 0 = World.cfnRepositories world1 !! 0.
Proof.
  destruct (@Repository.new spec_cdk 0 "repository-2"
              (upstreamProps "example-repo-2" [Repository.base repository1]) world1)
    as [[r|e] w2] eqn:Hnew; [|vm_compute in Hnew; discriminate].
  exists r, w2. split; [reflexivity|].
  destruct (World.cfnRepositories world1 !! 0) as [c|] eqn:Hc;
    [|vm_compute in Hc; discriminate].
  exact (proj1 (@Repository_new_frame spec_cdk 0 "repository-2"
                  (upstreamProps "example-repo-2" [Repository.base repository1])
                  world1 r w2 Hnew) 0 c Hc).
Defined.

(** ** Importing a domain by name and again by its ARN *)

Lemma split_nonempty (sep : ascii) (s : string) : exists h t, split sep s = h :: t.
Proof.
  induction s as [|c s (h & t & IH)]; simpl; [eauto|].
  destruct (Ascii.eqb c sep); [eauto|]. rewrite IH. eauto.
Qed.

(** Joining what [split] gave restores the string. *)
Lemma join_split (sep : ascii) (s : string) :
  join (String sep EmptyString) (split sep s) = s.
Proof.
  unfold join. induction s as [|c s IH]; simpl; [reflexivity|].
  destruct (split_nonempty sep s) as (h & t & Hs). rewrite Hs in *.
  destruct (Ascii.eqb c sep) eqn:Hc.
  - apply Ascii.eqb_eq in Hc. subst c.
    change (String sep (String.concat (String sep EmptyString) (h :: t)) = String sep s).
    rewrite IH. reflexivity.
  - destruct t as [|y t].
    + simpl in *. rewrite IH. reflexivity.
    + change (String c (String.concat (String sep EmptyString) (h :: y :: t)) = String c s).
      rewrite IH. reflexivity.
Qed.

(** A separator after a part that has none ends the first field. *)
Lemma split_app (sep : ascii) (a b : string) :
  without sep a ->
  split sep (a +:+ String sep b) = a :: split sep b.
Proof.
  unfold without. induction a as [|c a IH]; simpl; intros Ha.
  - rewrite Ascii.eqb_refl. reflexivity.
  - destruct (Ascii.eqb c sep) eqn:Hc.
    + apply Ascii.eqb_eq in Hc. subst c. tauto.
    + rewrite IH by tauto. reflexivity.
Qed.

(** The ARN codec of the specification reads back a domain ARN it wrote. *)
Lemma spec_splitArn_domain (partition region account name : string) :
  without ":" partition -> without ":" region -> without ":" account ->
  let arn := "arn:" +:+ partition +:+ ":codeartifact:" +:+ region +:+ ":" +:+ account
             +:+ ":domain/" +:+ name in
  split ":" arn !! 4 = Some account
  /\ spec_splitArn arn
     = Ok (ArnComponents.mk (Some partition) (Some "codeartifact") (Some region) (Some account)
                            (Some "domain") (Some name)).
Proof.
  intros Hp Hr Ha arn.
  assert (Hsplit : split ":" arn
                   = "arn" :: partition :: "codeartifact" :: region :: account
                     :: split ":" ("domain/" +:+ name)).
  { subst arn.
    change ("arn:" +:+ partition +:+ ":codeartifact:" +:+ region +:+ ":" +:+ account
            +:+ ":domain/" +:+ name)
      with ("arn" +:+ String ":" (partition +:+ String ":" ("codeartifact" +:+ String ":"
              (region +:+ String ":" (account +:+ String ":" ("domain/" +:+ name)))))).
    rewrite (split_app ":" "arn") by (unfold without; simpl; intros [H|[H|[H|[]]]]; discriminate).
    rewrite (split_app ":" partition) by exact Hp.
    rewrite (split_app ":" "codeartifact")
      by (unfold without; simpl; intuition discriminate).
    rewrite (split_app ":" region) by exact Hr.
    rewrite (split_app ":" account) by exact Ha.
    reflexivity. }
  split.
  - rewrite Hsplit. reflexivity.
  - unfold spec_splitArn. rewrite Hsplit.
    destruct (split_nonempty ":" ("domain/" +:+ name)) as (h & t & Hrest).
    rewrite Hrest. cbv iota beta.
    rewrite <- Hrest. change ":"%string with (String ":" EmptyString).
    rewrite join_split. reflexivity.
Qed.

(** X13.  With the ARN shapes of the specification, a domain imported by
    name (first revision) and imported again from the ARN the first import
    carries is the same domain: same name, same owner, same ARN.  This holds
    for every non-empty name, when the stack's partition and region and the
    owner (the stack's account when no owner is given) contain no colon. *)
Theorem ImportedDomain_round_trip scope id scope' id' (name : string) (owner : option string)
    w w' :
  truthy (Some name) = true ->
  let account := if truthy owner then default "" owner else Stack.account (World.stack w) in
  without ":" (Stack.partition (World.stack w)) ->
  without ":" (Stack.region (World.stack w)) ->
  without ":" account ->
  exists d arn d',
    value (@Domain.fromDomainAttributes spec_cdk Rev1 scope id
             (DomainAttributes.mk None (Some name) owner None) w) = Ok d
    /\ IDomain.domainArn d = Some arn
    /\ value (@Domain.fromDomainArn spec_cdk Rev1 scope' id' arn w') = Ok d'
    /\ IDomain.domainName d' = IDomain.domainName d
    /\ IDomain.domainOwner d' = IDomain.domainOwner d
    /\ IDomain.domainArn d' = IDomain.domainArn d
    /\ IDomain.domainName d = Some name
    /\ IDomain.domainOwner d = Some account.
Proof.
  intros Hname account Hp Hr Ha.
  destruct (spec_splitArn_domain _ _ _ name Hp Hr Ha) as (Hfield & Hsplit).
  set (arn := "arn:" +:+ Stack.partition (World.stack w) +:+ ":codeartifact:"
              +:+ Stack.region (World.stack w) +:+ ":" +:+ account +:+ ":domain/" +:+ name) in *.
  assert (Hfirst : @Domain.fromDomainAttributes spec_cdk Rev1 scope id
                     (DomainAttributes.mk None (Some name) owner None) w
                   = (Ok (IDomain.mk (length (World.constructs w)) (Some arn) (Some name) None
                            (Some account) None None),
                      attached scope id w)).
  { unfold Domain.fromDomainAttributes, ImportedDomain.new, Construct_new. unfold_M.
    cbn [DomainAttributes.domainArn DomainAttributes.domainName DomainAttributes.domainOwner
         truthy andb].
    simpl in Hname. rewrite Hname. cbn [negb].
    subst arn account. destruct owner as [o|]; simpl.
    - destruct (String.eqb o ""); reflexivity.
    - reflexivity. }
  exists (IDomain.mk (length (World.constructs w)) (Some arn) (Some name) None
                     (Some account) None None), arn.
  exists (IDomain.mk (length (World.constructs w')) (Some arn) (Some name) None
                     (Some account) None None).
  rewrite Hfirst. split; [reflexivity|]. split; [reflexivity|]. split; [|auto 10].
  unfold Domain.fromDomainArn, Domain.fromDomainAttributes, ImportedDomain.new, Construct_new.
  unfold_M.
  cbn [DomainAttributes.domainArn DomainAttributes.domainName DomainAttributes.domainOwner
       splitArn spec_cdk].
  assert (Harn : truthy (Some arn) = true) by reflexivity.
  rewrite Harn. cbn [truthy andb]. rewrite Hsplit, Hfield. reflexivity.
Qed.

Lemma ImportedDomain_round_trip_witness :
  exists d arn d',
    value (@Domain.fromDomainAttributes spec_cdk Rev1 0 "by-name"
             (DomainAttributes.mk None (Some "my-domain") None None) emptyWorld) = Ok d
    /\ IDomain.domainArn d = Some arn
    /\ value (@Domain.fromDomainArn spec_cdk Rev1 0 "by-arn" arn emptyWorld) = Ok d'
    /\ IDomain.domainName d' = Some "my-domain"
    /\ IDomain.domainOwner d' = Some "111122223333".
Proof.
  assert (Hfree : forall s, forallb (fun c => negb (Ascii.eqb c ":")) (list_ascii_of_string s) = true
                            -> without ":" s).
  { intros s Hs Hin. rewrite forallb_forall in Hs. apply Hs in Hin.
    rewrite Ascii.eqb_refl in Hin. discriminate. }
  destruct (ImportedDomain_round_trip 0 "by-name" 0 "by-arn" "my-domain" None
              emptyWorld emptyWorld eq_refl
              (Hfree "aws" eq_refl) (Hfree "us-east-2" eq_refl) (Hfree "111122223333" eq_refl))
    as (d & arn & d' & Hd & Harn & Hd' & Hname' & Howner' & _ & Hname & Howner).
  exists d, arn, d'. split; [exact Hd|]. split; [exact Harn|]. split; [exact Hd'|].
  split; [rewrite Hname'; exact Hname|rewrite Howner'; exact Howner].
Defined.

(** ** The encryption key of a domain *)

(** X14.  A constructed domain hands the id of the encryption key of its
    props to the Cfn resource, but its own [domainEncryptionKey] attribute
    is never set: the constructor does not assign it, in either revision. *)
Theorem Domain_new_encryptionKey `{Cdk} rev scope id props w d w1 :
  Domain.new rev scope id props w = (Ok d, w1) ->
  IDomain.domainEncryptionKey (Domain.base d) = None
  /\ CfnDomain.encryptionKey <$> World.cfnDomains w1 !! Domain.cfnDomain d
     = Some (IKey.keyId <$> (props ≫= DomainProps.domainEncryptionKey)).
Proof.
  intros Hnew. split.
  - revert Hnew.
    unfold Domain.new, Domain.validateProps, Domain.CfnDomain_new, Construct_new.
    unfold_M. simpl.
    destruct (isUnresolved _); simpl; [discriminate|].
    destruct (validate "DomainName" _ _); simpl; [discriminate|].
    destruct (validate "EncryptionKey" _ _); simpl; [discriminate|].
    intros Heq. inversion Heq; subst. reflexivity.
  - apply Domain_new_Ok in Hnew as (_ & _ & Hcfn & Hcfns & _).
    rewrite Hcfn, Hcfns, lookup_length_app. reflexivity.
Qed.

Lemma Domain_new_encryptionKey_witness :
  exists d w1,
    @Domain.new spec_cdk Rev2 0 "domain" (Some encryptedDomainProps) emptyWorld = (Ok d, w1)
    /\ IDomain.domainEncryptionKey (Domain.base d) = None
    /\ CfnDomain.encryptionKey <$> World.cfnDomains w1 !! Domain.cfnDomain d
       = Some (Some "1234abcd-12ab-34cd-56ef-1234567890ab").
Proof.
  destruct (@Domain.new spec_cdk Rev2 0 "domain" (Some encryptedDomainProps) emptyWorld)
    as [[d|e] w1] eqn:Hnew; [|vm_compute in Hnew; discriminate].
  exists d, w1. split; [reflexivity|].
  exact (@Domain_new_encryptionKey spec_cdk Rev2 0 "domain" (Some encryptedDomainProps)
           emptyWorld d w1 Hnew).
Defined.
